(** * Airflow_Finance_Pipeline: shallow embedding of the extract, clean,
    consolidate and summarise steps ([src/extractor.py], [src/transformer.py],
    [src/utils.py]) and proofs of their specified properties.

    Modelling conventions (pandas 2.2 on NumPy).
    - A finite float is an exact rational [Q]: the rounding error of the
      Python and pandas float arithmetic is not modelled, and rounding to [k]
      decimals is the round-half-to-even of the exact value.  Integer columns
      (int64, int32) wrap around as NumPy's do.  Infinite floats are not
      values of the model: where the code could produce one, the model
      returns the marker [EInfinito].
    - A pandas DataFrame is a list of typed columns and a list of positional
      rows; a missing value (NaN/None) is [VNull].  The row index is not
      modelled.  [df[c]] reads the first column labelled [c]; for tables
      with repeated labels pandas returns a DataFrame instead, and the
      theorems that need it assume distinct labels ([etiquetas_distintas]).
    - Python exceptions are the constructors of [PyErr]; fallible code
      returns a [Result].
    - Strings are byte strings: [float()] is modelled on ASCII text (the
      non-ASCII digits and spaces Python also accepts are refused).
    - The wall clock ([datetime.now()]) and the random generator
      ([random.random()]) are explicit inputs. *)

From Stdlib Require Import List String Ascii Bool ZArith QArith Qminmax Qround Qabs Lia Arith
  Permutation.
Import ListNotations.
Set Warnings "-register-all".


Open Scope string_scope.
Open Scope list_scope.

(** ** Errors and the result monad *)

Inductive PyErr : Type :=
| EEmpty (nombre : string)   (* ValueError(f"{nombre} esta vacio") of validar_dataframe_basico *)
| EKey (col : string)        (* KeyError on a missing column or key *)
| EType                      (* TypeError *)
| EAttr                      (* AttributeError *)
| EValue                     (* ValueError of float(), of a merge on incompatible keys
                                or with clashing labels (MergeError) *)
| EZeroDiv                   (* ZeroDivisionError *)
| EOverflow                  (* OverflowError of date arithmetic or of float() of an int *)
| EInfinito.                 (* not a Python error: the code produced an infinite float,
                                which the model does not represent *)

Inductive Result (A : Type) : Type :=
| Ok (a : A)
| Err (e : PyErr).
Arguments Ok {A} a.
Arguments Err {A} e.

Definition bind {A B : Type} (c : Result A) (k : A -> Result B) : Result B :=
  match c with
  | Ok a => k a
  | Err e => Err e
  end.

Notation "'let*' x ':=' c 'in' k" := (bind c (fun x => k))
  (at level 200, x name, c at level 100, k at level 200).

Fixpoint mapM {A B : Type} (f : A -> Result B) (l : list A) : Result (list B) :=
  match l with
  | [] => Ok []
  | a :: l' => let* b := f a in let* bs := mapM f l' in Ok (b :: bs)
  end.

(** ** Cell values, dtypes, tables *)

Inductive Val : Type :=
| VNum (q : Q)
| VStr (s : string)
| VNull.

(** pandas equality used by [drop_duplicates], merge keys and [==] filters:
    missing values compare equal to each other for duplicates and keys. *)
Definition val_eqb (a b : Val) : bool :=
  match a, b with
  | VNum x, VNum y => Qeq_bool x y
  | VStr x, VStr y => String.eqb x y
  | VNull, VNull => true
  | _, _ => false
  end.

Definition is_null (v : Val) : bool :=
  match v with VNull => true | _ => false end.

(** Column dtypes.  [DOther] stands for the dtypes on which the arithmetic
    and the statistics of the pipeline fail: category, datetime64 and the
    string dtype.  The nullable extension dtypes (Int64, Float64, boolean),
    the other integer and float widths and timedelta64 are not modelled. *)
Inductive Dtype : Type :=
| DFloat64 | DInt64 | DObject | DFloat32 | DInt32 | DBool | DOther.

Definition dtype_eqb (a b : Dtype) : bool :=
  match a, b with
  | DFloat64, DFloat64 | DInt64, DInt64 | DObject, DObject | DFloat32, DFloat32
  | DInt32, DInt32 | DBool, DBool | DOther, DOther => true
  | _, _ => false
  end.

Definition es_entero (d : Dtype) : bool :=
  match d with DInt64 | DInt32 => true | _ => false end.

Definition es_flotante (d : Dtype) : bool :=
  match d with DFloat64 | DFloat32 => true | _ => false end.

Definition Row := list Val.

Record Table : Type := mkTable {
  cols : list (string * Dtype);
  rows : list Row
}.

Definition col_names (t : Table) : list string := map fst (cols t).

Definition has_col (t : Table) (c : string) : bool :=
  existsb (String.eqb c) (col_names t).

Fixpoint index_of (c : string) (l : list string) : option nat :=
  match l with
  | [] => None
  | x :: l' => if String.eqb c x then Some 0%nat
               else option_map S (index_of c l')
  end.

(** [row[c]]: the value of row [r] of [t] under the first column named [c]. *)
Definition cell (t : Table) (r : Row) (c : string) : option Val :=
  match index_of c (col_names t) with
  | Some i => nth_error r i
  | None => None
  end.

Fixpoint row_eqb (r1 r2 : Row) : bool :=
  match r1, r2 with
  | [], [] => true
  | a :: r1', b :: r2' => val_eqb a b && row_eqb r1' r2'
  | _, _ => false
  end.

(** ** [limpiar_dataframe] (transformer.py lines 14-53) *)

(** [df.drop_duplicates()]: keep the first occurrence of each row. *)
Fixpoint drop_dup_aux (seen : list Row) (rs : list Row) : list Row :=
  match rs with
  | [] => []
  | r :: rs' =>
      if existsb (row_eqb r) seen then drop_dup_aux seen rs'
      else r :: drop_dup_aux (r :: seen) rs'
  end.

Definition drop_duplicates (t : Table) : Table :=
  mkTable (cols t) (drop_dup_aux [] (rows t)).

(** [df.dropna(how='all')]: drop rows whose every value is missing. *)
Definition dropna_all (t : Table) : Table :=
  mkTable (cols t) (filter (fun r => negb (forallb is_null r)) (rows t)).

(** Columns of dtype float64/int64 ([select_dtypes(include=['float64',
    'int64'])]) are filled with [0], object columns with ['N/A']; the other
    dtypes (float32, ...) keep their missing values. *)
Definition fill_val (d : Dtype) (v : Val) : Val :=
  match v with
  | VNull =>
      match d with
      | DFloat64 | DInt64 => VNum 0
      | DObject => VStr "N/A"
      | _ => VNull
      end
  | _ => v
  end.

Fixpoint fill_row (ds : list Dtype) (r : Row) : Row :=
  match ds, r with
  | d :: ds', v :: r' => fill_val d v :: fill_row ds' r'
  | _, _ => r
  end.

Definition fillna (t : Table) : Table :=
  mkTable (cols t) (map (fill_row (map snd (cols t))) (rows t)).

Definition limpiar_dataframe (t : Table) : Table :=
  fillna (dropna_all (drop_duplicates t)).

(** ** Rounding and column helpers *)

(** Round-half-to-even of a rational to an integer. *)
Definition round_half_even (x : Q) : Z :=
  let n := Qnum x in
  let d := Zpos (Qden x) in
  let f := (n / d)%Z in
  match Z.compare (2 * (n mod d)) d with
  | Lt => f
  | Gt => (f + 1)%Z
  | Eq => if Z.even f then f else (f + 1)%Z
  end.

Definition scale (k : nat) : Q := inject_Z (10 ^ Z.of_nat k).

(** [round(x, k)] / [Series.round(k)]. *)
Definition round_dec (k : nat) (x : Q) : Q :=
  inject_Z (round_half_even (x * scale k)) / scale k.

Fixpoint replace_nth {A : Type} (n : nat) (x : A) (l : list A) : list A :=
  match n, l with
  | O, _ :: l' => x :: l'
  | S n', y :: l' => y :: replace_nth n' x l'
  | _, [] => []
  end.

(** [df[c] = values]: overwrite the first column named [c] in place, or
    append a new column [c] at the end. *)
Definition set_column (t : Table) (c : string) (d : Dtype) (vs : list Val) : Table :=
  match index_of c (col_names t) with
  | Some i => mkTable (replace_nth i (c, d) (cols t))
                      (map (fun rv => replace_nth i (snd rv) (fst rv)) (combine (rows t) vs))
  | None => mkTable (cols t ++ [(c, d)])
                    (map (fun rv => fst rv ++ [snd rv]) (combine (rows t) vs))
  end.

(** [df[c] = scalar]. *)
Definition set_const (t : Table) (c : string) (d : Dtype) (v : Val) : Table :=
  set_column t c d (repeat v (List.length (rows t))).

(** The positions of the columns labelled [c]. *)
Fixpoint positions (c : string) (l : list string) : list nat :=
  match l with
  | [] => []
  | x :: l' => (if String.eqb c x then [0%nat] else []) ++ map S (positions c l')
  end.

(** [df[names]]: every column labelled by a name, in the order of the
    names (all columns of a repeated label); KeyError when a name is not a
    column. *)
Definition select (t : Table) (names : list string) : Result Table :=
  let* idx := mapM (fun c => match positions c (col_names t) with
                             | [] => Err (EKey c)
                             | ps => Ok ps
                             end) names in
  let idx := List.concat idx in
  Ok (mkTable (map (fun i => nth i (cols t) ("", DOther)) idx)
              (map (fun r => map (fun i => nth i r VNull) idx) (rows t))).

(** [df[c]] as a list of values (KeyError when absent). *)
Definition column (t : Table) (c : string) : Result (list Val) :=
  match index_of c (col_names t) with
  | Some i => Ok (map (fun r => nth i r VNull) (rows t))
  | None => Err (EKey c)
  end.

Definition dtype_of (t : Table) (c : string) : Dtype :=
  match index_of c (col_names t) with
  | Some i => snd (nth i (cols t) ("", DOther))
  | None => DOther
  end.

(** ** [pd.merge(left, right, on=key, how='left', suffixes=(sl, sr))] *)

Definition remove_nth {A : Type} (n : nat) (l : list A) : list A :=
  firstn n l ++ skipn (S n) l.

(** Non-key columns present on both sides get the suffix of their side. *)
Definition suffix_col (key suf : string) (other : list string) (c : string * Dtype)
  : string * Dtype :=
  if negb (String.eqb (fst c) key) && existsb (String.eqb (fst c)) other
  then (String.append (fst c) suf, snd c) else c.

Definition es_texto (v : Val) : bool :=
  match v with VStr _ => true | _ => false end.

Definition es_numero (v : Val) : bool :=
  match v with VNum _ => true | _ => false end.

(** [lib.infer_dtype(values, skipna=False)] of an object column, as far as
    the merge key check needs it: ['empty'], ['string'] (only strings),
    ['mixed'] (strings and missing values), or an inferred type that is not
    string-like.  A number in an object column is taken to be a Python int
    and a missing value to be NaN. *)
Inductive Inferido : Type := IVacio | ITexto | IMixto | IOtro.

Definition inferir_objeto (vs : list Val) : Inferido :=
  match vs with
  | [] => IVacio
  | _ => if forallb es_texto vs then ITexto
         else if existsb es_texto vs && negb (existsb es_numero vs) then IMixto
         else IOtro
  end.

Definition is_nil {A : Type} (l : list A) : bool :=
  match l with [] => true | _ => false end.

(** The key check of the merge ([_maybe_coerce_merge_keys]) for key columns
    of dtypes [dl], [dr] and values [lk], [rk]: ValueError for keys pandas
    refuses to compare; [Ok true] when both key columns are converted to
    object; [Ok false] when they are used as they are.  A key of dtype
    [DOther] is passed through (its checks are not modelled). *)
Definition comprobar_claves (dl dr : Dtype) (lk rk : list Val) : Result bool :=
  if xorb (is_nil lk) (is_nil rk) then Ok false
  else if dtype_eqb dl dr then Ok false
  else
    match dl, dr with
    | DOther, _ | _, DOther => Ok false
    | DObject, DBool | DBool, DObject => Ok true
    | DObject, d =>
        match inferir_objeto lk with
        | IVacio => if es_entero d then Ok true else Err EValue
        | ITexto | IMixto => Err EValue
        | IOtro => Ok true
        end
    | d, DObject =>
        match inferir_objeto rk with
        | IVacio => if es_entero d then Ok true else Err EValue
        | ITexto | IMixto => Err EValue
        | IOtro => Ok true
        end
    | _, _ =>
        (* two numeric dtypes: same kind, or int and float, are compared as
           they are; bool against a number is converted to object *)
        if (es_entero dl || es_flotante dl) && (es_entero dr || es_flotante dr)
        then Ok false else Ok true
    end.

(** [labels.duplicated() & ~orig.duplicated()] has a true entry: the
    suffixed labels [ren] repeat a label that the original labels [orig] did
    not repeat (pandas' MergeError, a ValueError). *)
Fixpoint crea_duplicados_aux (vistos_o vistos_r : list string) (orig ren : list string) : bool :=
  match orig, ren with
  | o :: orig', x :: ren' =>
      (existsb (String.eqb x) vistos_r && negb (existsb (String.eqb o) vistos_o))
      || crea_duplicados_aux (o :: vistos_o) (x :: vistos_r) orig' ren'
  | _, _ => false
  end.

Definition crea_duplicados (orig ren : list string) : bool :=
  crea_duplicados_aux [] [] orig ren.

(** The number of columns labelled [c]. *)
Definition ocurrencias (c : string) (l : list string) : nat :=
  List.length (filter (String.eqb c) l).

(** The dtype a right column takes when the join leaves a left row without
    match, so that the column receives NaN. *)
Definition ensanchar (d : Dtype) : Dtype :=
  match d with
  | DInt64 | DInt32 => DFloat64
  | DBool => DObject
  | _ => d
  end.

(** [df._get_label_or_level_values(key)]: KeyError when no column is
    labelled [key], ValueError when several are. *)
Definition columna_clave (t : Table) (key : string) : Result nat :=
  match index_of key (col_names t) with
  | None => Err (EKey key)
  | Some i => if Nat.eqb (ocurrencias key (col_names t)) 1 then Ok i else Err EValue
  end.

(** [pd.merge(l, r, on=key, how='left', suffixes=(sl, sr))]: the right key
    is read first, then the left key; the row order is the left order, the
    matches of a row in the right order. *)
Definition merge_left (l r : Table) (key sl sr : string) : Result Table :=
      let* ir := columna_clave r key in
      let* il := columna_clave l key in
      let* convertir :=
        comprobar_claves (snd (nth il (cols l) ("", DOther))) (snd (nth ir (cols r) ("", DOther)))
                         (map (fun lr => nth il lr VNull) (rows l))
                         (map (fun rr => nth ir rr VNull) (rows r)) in
      let lcols := if convertir then replace_nth il (key, DObject) (cols l) else cols l in
      let rcols := remove_nth ir (cols r) in
      let izq := map (suffix_col key sl (map fst rcols)) lcols in
      let der := map (suffix_col key sr (col_names l)) rcols in
      if crea_duplicados (col_names l) (map fst izq)
         || crea_duplicados (map fst rcols) (map fst der) then Err EValue else
      let matches (lr : Row) :=
        filter (fun rr => val_eqb (nth il lr VNull) (nth ir rr VNull)) (rows r) in
      let out_rows :=
        flat_map (fun lr => match matches lr with
                            | [] => [lr ++ repeat VNull (List.length rcols)]
                            | ms => map (fun rr => lr ++ remove_nth ir rr) ms
                            end) (rows l) in
      let unmatched := existsb (fun lr => match matches lr with [] => true | _ => false end) (rows l) in
      let widen (c : string * Dtype) := if unmatched then (fst c, ensanchar (snd c)) else c in
      Ok (mkTable (izq ++ map widen der) out_rows).

(** ** [calcular_precio_local] (transformer.py lines 56-112) *)

(** NumPy's result dtype of [df[precio] * df[tipo_cambio]]; [None] when a
    column is not numeric (object or [DOther]): pandas then raises
    TypeError, in the product or in the [.round(2)] of an object Series. *)
Definition dtype_producto (dp dt : Dtype) : option Dtype :=
  let numerico d := es_entero d || es_flotante d in
  match dp, dt with
  | DBool, DBool => Some DBool
  | _, DBool => if numerico dp then Some dp else None
  | DBool, _ => if numerico dt then Some dt else None
  | DInt32, DInt32 => Some DInt32
  | DFloat32, DFloat32 => Some DFloat32
  | _, _ =>
      if numerico dp && numerico dt then
        if es_entero dp && es_entero dt then Some DInt64 else Some DFloat64
      else None
  end.

(** Two's-complement wrap-around of an integer to [bits] bits. *)
Definition envolver (bits : Z) (z : Z) : Z :=
  ((z + 2 ^ (bits - 1)) mod 2 ^ bits - 2 ^ (bits - 1))%Z.

(** An element of [(df[precio] * df[tipo_cambio]).round(2)] of dtype [d],
    from the exact product [x]: integer products wrap around and are left
    as they are by [.round(2)], as are booleans; floats are rounded. *)
Definition valor_producto (d : Dtype) (x : Q) : Q :=
  match d with
  | DInt64 => inject_Z (envolver 64 (Qfloor x))
  | DInt32 => inject_Z (envolver 32 (Qfloor x))
  | DBool => x
  | _ => round_dec 2 x
  end.

(** One element of the product column; a string is not a value of a
    numeric column. *)
Definition precio_local_val (d : Dtype) (p t : Val) : Result Val :=
  match p, t with
  | VNum a, VNum b => Ok (VNum (valor_producto d (a * b)))
  | VStr _, _ => Err EType
  | _, VStr _ => Err EType
  | _, _ => Ok VNull
  end.

(** Lines 89-96; the logging of min/max/mean formats numbers or NaN and
    does not fail. *)
Definition calcular_precio_local (df : Table) (moneda_local : string) : Result Table :=
  let columna_precio := "precio_usd" in
  let columna_tipo_cambio := "tipo_cambio" in
  if negb (has_col df columna_precio) then Ok df
  else if negb (has_col df columna_tipo_cambio) then Ok df
  else
    match dtype_producto (dtype_of df columna_precio) (dtype_of df columna_tipo_cambio) with
    | None => Err EType
    | Some d =>
        let* ps := column df columna_precio in
        let* ts := column df columna_tipo_cambio in
        let* pl := mapM (fun pt => precio_local_val d (fst pt) (snd pt)) (combine ps ts) in
        let df := set_column df "precio_local" d pl in
        Ok (set_const df "moneda_local" DObject (VStr moneda_local))
    end.

(** ** [consolidar_datos] (transformer.py lines 115-236) *)

(** The single-row table used when no rate matches the local currency. *)
Definition fallback_tipo_cambio (hoy moneda_local : string) : Table :=
  mkTable [("fecha", DObject); ("moneda_origen", DObject);
           ("moneda_destino", DObject); ("tipo_cambio", DFloat64)]
          [[VStr hoy; VStr "USD"; VStr moneda_local; VNum 1]].

(** Step 2: [df[df['moneda_destino'] == moneda_local]], with the fallback. *)
Definition filtrar_tipo_cambio (hoy : string) (t : Table) (moneda_local : string)
  : Result Table :=
  match index_of "moneda_destino" (col_names t) with
  | None => Err (EKey "moneda_destino")
  | Some i =>
      let local := mkTable (cols t)
        (filter (fun r => val_eqb (nth i r VNull) (VStr moneda_local)) (rows t)) in
      match rows local with
      | [] => Ok (fallback_tipo_cambio hoy moneda_local)
      | _ => Ok local
      end
  end.

(** Line 167: [f"{df['tipo_cambio'].values[0]:.2f}"] needs a number (or NaN). *)
Definition log_primer_tipo_cambio (t : Table) : Result unit :=
  let* vs := column t "tipo_cambio" in
  match vs with
  | VStr _ :: _ => Err EValue
  | [] => Err (EKey "0")
  | _ => Ok tt
  end.

Definition columnas_principales : list string :=
  ["producto_id"; "nombre"; "categoria"; "precio_usd"; "tipo_cambio";
   "precio_local"; "moneda_local"; "fecha"; "fecha_procesamiento"].

(** Step 8: preferred columns first, then the others in their order. *)
Definition ordenar_columnas (df : Table) : Result Table :=
  let otras := filter (fun c => negb (existsb (String.eqb c) columnas_principales))
                      (col_names df) in
  let disponibles := filter (fun c => existsb (String.eqb c) (col_names df))
                            (columnas_principales ++ otras) in
  select df disponibles.

(** [hoy] is [datetime.now().strftime('%Y-%m-%d')] and [ahora] is
    [datetime.now().strftime('%Y-%m-%d %H:%M:%S')]. *)
Definition consolidar_datos (hoy ahora : string)
  (df_productos df_tipos_cambio df_adicionales : Table) (moneda_local : string)
  : Result Table :=
  let df_productos := limpiar_dataframe df_productos in
  let df_tipos_cambio := limpiar_dataframe df_tipos_cambio in
  let df_adicionales := limpiar_dataframe df_adicionales in
  let* df_tipo_cambio_local := filtrar_tipo_cambio hoy df_tipos_cambio moneda_local in
  let* _ := log_primer_tipo_cambio df_tipo_cambio_local in
  let df_productos :=
    if has_col df_productos "fecha" then df_productos
    else set_const df_productos "fecha" DObject (VStr hoy) in
  let* derecha := select df_tipo_cambio_local ["fecha"; "tipo_cambio"] in
  let* df_consolidado := merge_left df_productos derecha "fecha" "_x" "_y" in
  let* df_consolidado :=
    merge_left df_consolidado df_adicionales "producto_id" "" "_adicional" in
  let* df_consolidado := calcular_precio_local df_consolidado moneda_local in
  let df_consolidado :=
    set_const df_consolidado "fecha_procesamiento" DObject (VStr ahora) in
  let df_consolidado :=
    set_const df_consolidado "pipeline_version" DObject (VStr "1.0") in
  ordenar_columnas df_consolidado.

(** ** Python's [float()] on a string *)

(** A float: finite (an exact rational), infinite, or NaN. *)
Inductive PyNum : Type :=
| PFin (q : Q)
| PInf (neg : bool)
| PNaN.

Definition digit_value (c : ascii) : option Z :=
  let n := nat_of_ascii c in
  if (48 <=? n)%nat && (n <=? 57)%nat then Some (Z.of_nat (n - 48)) else None.

Definition es_digito (c : ascii) : bool :=
  match digit_value c with Some _ => true | None => false end.

(** [str.isspace()] on an ASCII character: tab, line feed, vertical tab,
    form feed, carriage return, the separators 0x1c-0x1f and space. *)
Definition es_espacio (c : ascii) : bool :=
  let n := nat_of_ascii c in
  ((9 <=? n)%nat && (n <=? 13)%nat) || ((28 <=? n)%nat && (n <=? 32)%nat).

(** [_Py_string_to_number_with_underscores]: an underscore is allowed only
    between two digits; the underscores are then removed.  [prev] is the
    previous character. *)
Fixpoint quitar_guiones (prev : option ascii) (l : list ascii) : option (list ascii) :=
  match l with
  | [] => match prev with Some "_"%char => None | _ => Some [] end
  | c :: l' =>
      if Ascii.eqb c "_" then
        match prev with
        | Some p => if es_digito p then quitar_guiones (Some c) l' else None
        | None => None
        end
      else
        let ok := match prev with Some "_"%char => es_digito c | _ => true end in
        if ok then option_map (cons c) (quitar_guiones (Some c) l') else None
  end.

Fixpoint quitar_espacios_izq (l : list ascii) : list ascii :=
  match l with
  | c :: l' => if es_espacio c then quitar_espacios_izq l' else l
  | [] => []
  end.

(** Leading and trailing white space is ignored. *)
Definition quitar_espacios (l : list ascii) : list ascii :=
  rev (quitar_espacios_izq (rev (quitar_espacios_izq l))).

(** An optional sign. *)
Definition signo (l : list ascii) : bool * list ascii :=
  match l with
  | "-"%char :: l' => (true, l')
  | "+"%char :: l' => (false, l')
  | _ => (false, l)
  end.

(** A run of digits: its value, its length and the rest. *)
Fixpoint digitos (l : list ascii) (acc : Z) (n : nat) : Z * nat * list ascii :=
  match l with
  | c :: l' =>
      match digit_value c with
      | Some v => digitos l' (10 * acc + v) (S n)
      | None => (acc, n, l)
      end
  | [] => (acc, n, l)
  end.

(** An optional exponent [e[+-]digits] (or [E]); without digits the [e]
    is not part of the number. *)
Definition exponente (l : list ascii) : Z * list ascii :=
  match l with
  | e :: l' =>
      if Ascii.eqb e "e" || Ascii.eqb e "E" then
        let '(neg, l2) := signo l' in
        match digitos l2 0 0 with
        | (v, S _, rest) => ((if neg then - v else v)%Z, rest)
        | _ => (0%Z, l)
        end
      else (0%Z, l)
  | [] => (0%Z, l)
  end.

Definition a_minuscula (c : ascii) : ascii :=
  let n := nat_of_ascii c in
  if (65 <=? n)%nat && (n <=? 90)%nat then ascii_of_nat (n + 32) else c.

Definition ascii_list_eqb (a b : list ascii) : bool :=
  String.eqb (string_of_list_ascii a) (string_of_list_ascii b).

(** [inf], [infinity] and [nan] in any case, after the sign. *)
Definition nombre_especial (neg : bool) (l : list ascii) : option PyNum :=
  let l := map a_minuscula l in
  if ascii_list_eqb l (list_ascii_of_string "inf")
     || ascii_list_eqb l (list_ascii_of_string "infinity") then Some (PInf neg)
  else if ascii_list_eqb l (list_ascii_of_string "nan") then Some PNaN
  else None.

(** The least magnitude that rounds to an infinite double, [2^1024 - 2^970],
    and the greatest that rounds to zero, [2^-1075]. *)
Definition umbral_desborde : Q := inject_Z (2 ^ 1024 - 2 ^ 970).

Definition umbral_cero : Q := 1 # (2 ^ 1075).

(** A finite result of the float arithmetic, or its overflow to infinity. *)
Definition flotante (x : Q) : PyNum :=
  if Qle_bool umbral_desborde (Qabs x) then PInf (negb (Qle_bool 0 x)) else PFin x.

(** The number of decimal digits of a positive integer, [fuel] bounding
    the count. *)
Fixpoint n_digitos (fuel : nat) (m : Z) : Z :=
  match fuel with
  | O => 0
  | S f => if (m <? 10)%Z then 1 else 1 + n_digitos f (m / 10)
  end.

(** The double nearest to [m * 10^k] ([m >= 0]), up to the rounding inside
    the float range: infinite beyond it, zero below the least subnormal
    half.  The magnitude is bounded before computing [10^k], so that huge
    exponents are handled without computing their power. *)
Definition valor_decimal (neg : bool) (m : Z) (fuel : nat) (k : Z) : PyNum :=
  if (m =? 0)%Z then PFin 0 else
  let d := n_digitos fuel m in
  if (309 <=? k + d - 1)%Z then PInf neg
  else if (k + d <=? -325)%Z then PFin 0
  else
    let v := inject_Z m * Qpower 10 k in
    if Qle_bool umbral_desborde v then PInf neg
    else if Qle_bool v umbral_cero then PFin 0
    else PFin (if neg then - v else v).

(** [float(s)] on a string: underscores between digits, surrounding white
    space, [[+-](digits[.[digits]] | .digits)[(e|E)[+-]digits]], or a
    signed [inf], [infinity] or [nan] in any case ([_Py_dg_strtod] and
    [_Py_parse_inf_or_nan]).  [None] is ValueError. *)
Definition parse_float (s : string) : option PyNum :=
  match quitar_guiones None (list_ascii_of_string s) with
  | None => None
  | Some l =>
      let l := quitar_espacios l in
      let '(neg, l1) := signo l in
      let '(ip, ni, l2) := digitos l1 0 0 in
      let '(fp, nf, l3) :=
        match l2 with
        | "."%char :: r => digitos r ip ni
        | _ => (ip, ni, l2)
        end in
      if (nf =? 0)%nat then nombre_especial neg l1
      else
        let '(e, l4) := exponente l3 in
        match l4 with
        | [] => Some (valor_decimal neg fp nf (e - Z.of_nat (nf - ni)))
        | _ => None
        end
  end.

(** ** [generar_resumen_estadistico] (transformer.py lines 239-285) *)

Inductive SVal : Type :=
| SNat (n : nat)
| SNames (l : list string)
| SText (s : string)
| SStats (minimo maximo promedio mediana : option Q)   (* None is NaN *)
| SCounts (l : list (Val * nat)).

Definition Resumen := list (string * SVal).

Fixpoint insert_q (x : Q) (l : list Q) : list Q :=
  match l with
  | [] => [x]
  | y :: l' => if Qle_bool x y then x :: l else y :: insert_q x l'
  end.

Definition sort_q (l : list Q) : list Q := fold_right insert_q [] l.

Definition q_sum (l : list Q) : Q := fold_right Qplus 0 l.

Definition q_min (l : list Q) : option Q :=
  match l with [] => None | x :: l' => Some (fold_left Qmin l' x) end.

Definition q_max (l : list Q) : option Q :=
  match l with [] => None | x :: l' => Some (fold_left Qmax l' x) end.

Definition q_mean (l : list Q) : option Q :=
  match l with [] => None | _ => Some (q_sum l / inject_Z (Z.of_nat (List.length l))) end.

Definition q_median (l : list Q) : option Q :=
  let s := sort_q l in
  let n := List.length s in
  match n with
  | O => None
  | _ => if Nat.odd n then Some (nth (n / 2) s 0)
         else Some ((nth (n / 2 - 1) s 0 + nth (n / 2) s 0) / 2)
  end.

(** Non-missing numeric values of a column; strings make [mean] raise. *)
Fixpoint numeric_values (vs : list Val) : Result (list Q) :=
  match vs with
  | [] => Ok []
  | VNum q :: vs' => let* qs := numeric_values vs' in Ok (q :: qs)
  | VNull :: vs' => numeric_values vs'
  | VStr _ :: _ => Err EType
  end.

(** The strings of a column. *)
Fixpoint textos (vs : list Val) : list string :=
  match vs with
  | [] => []
  | VStr s :: vs' => s :: textos vs'
  | _ :: vs' => textos vs'
  end.

(** [min()] and [max()] of strings, in Python's (code point, here byte)
    order. *)
Definition texto_min (s : string) (ss : list string) : string :=
  fold_left (fun a b => match String.compare b a with Lt => b | _ => a end) ss s.

Definition texto_max (s : string) (ss : list string) : string :=
  fold_left (fun a b => match String.compare b a with Gt => b | _ => a end) ss s.

(** The values whose statistics an object column yields.  Without strings
    they are its numbers (missing values skipped).  Strings next to
    numbers or missing values make [min()] compare a string with a number
    (TypeError).  For a column of strings [float(df[c].min())] raises
    ValueError unless the least string is a float literal, then the same
    holds for [max()], and [mean()] of strings raises TypeError. *)
Definition valores_objeto (vs : list Val) : Result (list Q) :=
  match textos vs with
  | [] => numeric_values vs
  | s :: ss =>
      if forallb es_texto vs then
        match parse_float (texto_min s ss), parse_float (texto_max s ss) with
        | Some _, Some _ => Err EType
        | _, _ => Err EValue
        end
      else Err EType
  end.

(** [{'min': float(df[c].min()), 'max': ..., 'promedio': float(df[c].mean()),
    'mediana': float(df[c].median())}]; the statistics of a [DOther] column
    (category, datetime, string dtype) raise TypeError. *)
Definition bloque_estadisticas (df : Table) (c : string) : Result SVal :=
  let* vs := column df c in
  let* qs := match dtype_of df c with
             | DOther => Err EType
             | DObject => valores_objeto vs
             | _ => numeric_values vs
             end in
  Ok (SStats (q_min qs) (q_max qs) (q_mean qs) (q_median qs)).

(** [value_counts()]: counts of non-missing values, by decreasing count,
    ties in order of first appearance. *)
Fixpoint add_count (v : Val) (acc : list (Val * nat)) : list (Val * nat) :=
  match acc with
  | [] => [(v, 1%nat)]
  | (w, n) :: acc' => if val_eqb v w then (w, S n) :: acc' else (w, n) :: add_count v acc'
  end.

Fixpoint insert_count (x : Val * nat) (l : list (Val * nat)) : list (Val * nat) :=
  match l with
  | [] => [x]
  | y :: l' => if Nat.ltb (snd y) (snd x) then x :: l else y :: insert_count x l'
  end.

Definition value_counts (vs : list Val) : list (Val * nat) :=
  let counts := fold_left (fun acc v => if is_null v then acc else add_count v acc) vs [] in
  fold_left (fun acc x => insert_count x acc) counts [].

Definition generar_resumen_estadistico (ahora : string) (df : Table) : Result Resumen :=
  let resumen := [("total_registros", SNat (List.length (rows df)));
                  ("total_columnas", SNat (List.length (cols df)));
                  ("columnas", SNames (col_names df));
                  ("fecha_procesamiento", SText ahora)] in
  let* resumen :=
    if has_col df "precio_usd" then
      let* b := bloque_estadisticas df "precio_usd" in Ok (resumen ++ [("precio_usd", b)])
    else Ok resumen in
  let* resumen :=
    if has_col df "precio_local" then
      let* b := bloque_estadisticas df "precio_local" in Ok (resumen ++ [("precio_local", b)])
    else Ok resumen in
  if has_col df "categoria" then
    let* vs := column df "categoria" in
    Ok (resumen ++ [("por_categoria", SCounts (value_counts vs))])
  else Ok resumen.

Definition has_key (r : Resumen) (k : string) : bool :=
  existsb (fun kv => String.eqb (fst kv) k) r.

(** ** [transformar_datos_completo] (transformer.py lines 288-325).  The
    summary reads the clock again: [ahora_resumen]. *)

Definition transformar_datos_completo (hoy ahora ahora_resumen : string)
  (df_productos df_tipos_cambio df_adicionales : Table) (moneda_local : string)
  : Result (Table * Resumen) :=
  let* df_consolidado :=
    consolidar_datos hoy ahora df_productos df_tipos_cambio df_adicionales moneda_local in
  let* resumen := generar_resumen_estadistico ahora_resumen df_consolidado in
  Ok (df_consolidado, resumen).

(** ** [validar_dataframe_basico] (utils.py lines 82-102); [None] is
    [df is None]. *)
Definition validar_dataframe_basico (df : option Table) (nombre : string) : Result unit :=
  match df with
  | None => Err (EEmpty nombre)
  | Some t => match rows t with
              | [] => Err (EEmpty nombre)
              | _ => Ok tt
              end
  end.

(** ** Decoded JSON feeds *)

(** The value returned by [hacer_request_api]; an object is a decoded
    Python dict, its keys distinct and in insertion order. *)
Inductive Json : Type :=
| JNull
| JBool (b : bool)
| JNum (q : Q)
| JStr (s : string)
| JArr (l : list Json)
| JObj (kvs : list (string * Json)).

Fixpoint is_substring (k s : string) : bool :=
  String.prefix k s ||
  match s with
  | EmptyString => false
  | String _ s' => is_substring k s'
  end.

(** Python [key in data]. *)
Definition py_in (key : string) (data : Json) : Result bool :=
  match data with
  | JObj kvs => Ok (existsb (fun kv => String.eqb (fst kv) key) kvs)
  | JArr l => Ok (existsb (fun j => match j with JStr s => String.eqb s key | _ => false end) l)
  | JStr s => Ok (is_substring key s)
  | _ => Err EType
  end.

Fixpoint assoc (key : string) (kvs : list (string * Json)) : option Json :=
  match kvs with
  | [] => None
  | (k, v) :: kvs' => if String.eqb k key then Some v else assoc key kvs'
  end.

(** Python [data[key]] with a string key. *)
Definition py_getitem (data : Json) (key : string) : Result Json :=
  match data with
  | JObj kvs => match assoc key kvs with Some v => Ok v | None => Err (EKey key) end
  | _ => Err EType
  end.

(** Python [data.get(key, {})]. *)
Definition py_get (data : Json) (key : string) : Result Json :=
  match data with
  | JObj kvs => match assoc key kvs with Some v => Ok v | None => Ok (JObj []) end
  | _ => Err EAttr
  end.

(** Python [data.items()]. *)
Definition py_items (data : Json) : Result (list (string * Json)) :=
  match data with
  | JObj kvs => Ok kvs
  | _ => Err EAttr
  end.

(** Python [tasa > 0] ([bool] is an [int]). *)
Definition py_gt0 (tasa : Json) : Result bool :=
  match tasa with
  | JNum q => Ok (negb (Qle_bool q 0))
  | JBool b => Ok b
  | _ => Err EType
  end.

(** Python [1 / tasa]. *)
Definition py_inv (tasa : Json) : Result Q :=
  match tasa with
  | JNum q => if Qeq_bool q 0 then Err EZeroDiv else Ok (/ q)
  | JBool true => Ok 1
  | JBool false => Err EZeroDiv
  | _ => Err EType
  end.

(** Python [float(x)] on a decoded JSON value.  A finite float is
    returned as it is; a JSON integer beyond the float range makes
    [float()] raise OverflowError (no finite float is that large). *)
Definition py_float (x : Json) : Result PyNum :=
  match x with
  | JNum q => if Qle_bool umbral_desborde (Qabs q) then Err EOverflow else Ok (PFin q)
  | JBool b => Ok (PFin (if b then 1 else 0))
  | JStr s => match parse_float s with Some v => Ok v | None => Err EValue end
  | _ => Err EType
  end.

(** [x * y] for a float [x] and a finite, non-zero [y]. *)
Definition mul_num (x : PyNum) (y : Q) : PyNum :=
  match x with
  | PFin a => flotante (a * y)
  | PInf neg => PInf (xorb neg (negb (Qle_bool 0 y)))
  | PNaN => PNaN
  end.

(** [round(x, k)] stored in a DataFrame cell: NaN is a missing value, an
    infinite float is outside the model. *)
Definition celda_redondeada (k : nat) (x : PyNum) : Result Val :=
  match x with
  | PFin a => Ok (VNum (round_dec k a))
  | PNaN => Ok VNull
  | PInf _ => Err EInfinito
  end.

(** [random.uniform(a, b)] from the next [random.random()] value [u]. *)
Definition uniform (a b u : Q) : Q := a + (b - a) * u.

(** [random.choice(seq)] from the next [random.random()] value [u]. *)
Definition choice (seq : list string) (u : Q) : string :=
  nth (Z.to_nat (Qfloor (u * inject_Z (Z.of_nat (List.length seq))))) seq "".

(** ** Calendar dates and [generar_fechas_historicas] (extractor.py 16-37) *)

Record Date : Type := mkDate { year : Z; month : Z; day : Z }.

Definition is_leap (y : Z) : bool :=
  (Z.eqb (y mod 4) 0 && negb (Z.eqb (y mod 100) 0)) || Z.eqb (y mod 400) 0.

Definition days_in_month (y m : Z) : Z :=
  if Z.eqb m 2 then (if is_leap y then 29 else 28)
  else if Z.eqb m 4 || Z.eqb m 6 || Z.eqb m 9 || Z.eqb m 11 then 30
  else 31.

(** [d - timedelta(days=1)]; Python's dates start at 0001-01-01. *)
Definition pred_day (d : Date) : Result Date :=
  if Z.ltb 1 (day d) then Ok (mkDate (year d) (month d) (day d - 1))
  else if Z.ltb 1 (month d) then
    Ok (mkDate (year d) (month d - 1) (days_in_month (year d) (month d - 1)))
  else if Z.ltb 1 (year d) then Ok (mkDate (year d - 1) 12 31)
  else Err EOverflow.

(** [d - timedelta(days=i)]. *)
Fixpoint sub_days (d : Date) (i : nat) : Result Date :=
  match i with
  | O => Ok d
  | S i' => let* d' := sub_days d i' in pred_day d'
  end.

Definition digit (z : Z) : ascii := ascii_of_nat (48 + Z.to_nat (z mod 10)).

(** [d.strftime('%Y-%m-%d')]. *)
Definition strftime_ymd (d : Date) : string :=
  String (digit (year d / 1000)) (String (digit (year d / 100))
  (String (digit (year d / 10)) (String (digit (year d))
  (String "-" (String (digit (month d / 10)) (String (digit (month d))
  (String "-" (String (digit (day d / 10)) (String (digit (day d))
  EmptyString))))))))).

(** [range(dias_atras)] for a Python [int]. *)
Definition py_range (n : Z) : list nat := seq 0 (Z.to_nat n).

Definition generar_fechas_historicas (fecha_actual : Date) (dias_atras : Z)
  : Result (list string) :=
  mapM (fun i => let* fecha := sub_days fecha_actual i in Ok (strftime_ymd fecha))
       (py_range dias_atras).

(** ** The three extractors (extractor.py 40-233).  [data] is the decoded
    answer of [hacer_request_api], [hoy] the wall-clock date and [rnd k]
    the [k]-th value of [random.random()]. *)

(** [1 / tasa if tasa > 0 else 0] *)
Definition precio_base_de (tasa : Json) : Result Q :=
  let* positivo := py_gt0 tasa in
  if positivo then py_inv tasa else Ok 0.

Fixpoint productos_de_fecha (rnd : nat -> Q) (k : nat) (fecha : string)
  (items : list (string * Json)) : Result (list Row * nat) :=
  match items with
  | [] => Ok ([], k)
  | (moneda, tasa) :: items' =>
      let variacion := uniform (95 # 100) (105 # 100) (rnd k) in
      let* precio_base := precio_base_de tasa in
      let precio_historico := precio_base * variacion in
      let producto := [VStr (String.append "CURR_" moneda);
                       VStr (String.append "Moneda " moneda);
                       VNum (round_dec 4 precio_historico);
                       VStr "Forex"; VStr fecha] in
      let* rest := productos_de_fecha rnd (S k) fecha items' in
      Ok (producto :: fst rest, snd rest)
  end.

Fixpoint productos_loop (rnd : nat -> Q) (k : nat) (data : Json) (fechas : list string)
  : Result (list Row) :=
  match fechas with
  | [] => Ok []
  | fecha :: fechas' =>
      let* rates := py_getitem data "rates" in
      let* items := py_items rates in
      let* p := productos_de_fecha rnd k fecha items in
      let* rest := productos_loop rnd (snd p) data fechas' in
      Ok (fst p ++ rest)
  end.

(** [pd.DataFrame(list_of_dicts)]: no columns at all when the list is empty. *)
Definition data_frame (columnas : list (string * Dtype)) (registros : list Row) : Table :=
  match registros with
  | [] => mkTable [] []
  | _ => mkTable columnas registros
  end.

Definition columnas_productos : list (string * Dtype) :=
  [("producto_id", DObject); ("nombre", DObject); ("precio_usd", DFloat64);
   ("categoria", DObject); ("fecha", DObject)].

Definition extraer_api_productos (data : Json) (hoy : Date) (rnd : nat -> Q)
  (dias_historico : Z) : Result Table :=
  let* fechas := generar_fechas_historicas hoy dias_historico in
  let* tiene_rates := py_in "rates" data in
  let* productos := if tiene_rates then productos_loop rnd 0 data fechas else Ok [] in
  let df := data_frame columnas_productos productos in
  let* _ := validar_dataframe_basico (Some df) "Productos" in
  Ok df.

Fixpoint tipos_de_fecha (rnd : nat -> Q) (k : nat) (moneda_base fecha : string)
  (items : list (string * Json)) : Result (list Row * nat) :=
  match items with
  | [] => Ok ([], k)
  | (moneda, tasa) :: items' =>
      let variacion := uniform (98 # 100) (102 # 100) (rnd k) in
      let* t := py_float tasa in
      let* tasa_historica := celda_redondeada 4 (mul_num t variacion) in
      let registro := [VStr fecha; VStr moneda_base; VStr moneda; tasa_historica] in
      let* rest := tipos_de_fecha rnd (S k) moneda_base fecha items' in
      Ok (registro :: fst rest, snd rest)
  end.

Fixpoint tipos_loop (rnd : nat -> Q) (k : nat) (moneda_base : string) (rates : Json)
  (fechas : list string) : Result (list Row) :=
  match fechas with
  | [] => Ok []
  | fecha :: fechas' =>
      let* items := py_items rates in
      let* p := tipos_de_fecha rnd k moneda_base fecha items in
      let* rest := tipos_loop rnd (snd p) moneda_base rates fechas' in
      Ok (fst p ++ rest)
  end.

Definition columnas_tipos : list (string * Dtype) :=
  [("fecha", DObject); ("moneda_origen", DObject); ("moneda_destino", DObject);
   ("tipo_cambio", DFloat64)].

Definition extraer_api_tipos_cambio (data : Json) (hoy : Date) (rnd : nat -> Q)
  (moneda_base : string) (dias_historico : Z) : Result Table :=
  let* rates := py_get data "rates" in
  let* fechas := generar_fechas_historicas hoy dias_historico in
  let* tipos := tipos_loop rnd 0 moneda_base rates fechas in
  let df := data_frame columnas_tipos tipos in
  let* _ := validar_dataframe_basico (Some df) "Tipos de Cambio" in
  Ok df.

Definition ratings : list string := ["A"; "A+"; "A-"; "B+"].

Fixpoint adicionales_de_fecha (rnd : nat -> Q) (k : nat) (fecha : string)
  (items : list (string * Json)) : Result (list Row * nat) :=
  match items with
  | [] => Ok ([], k)
  | (crypto, rate) :: items' =>
      let variacion_volumen := uniform (8 # 10) (12 # 10) (rnd k) in
      let rating := choice ratings (rnd (S k)) in
      let* r := py_float rate in
      let* volumen := celda_redondeada 2 (mul_num (mul_num r 1000000) variacion_volumen) in
      let registro := [VStr (String.append "CRYPTO_" crypto); VStr rating; volumen;
                       VStr fecha] in
      let* rest := adicionales_de_fecha rnd (S (S k)) fecha items' in
      Ok (registro :: fst rest, snd rest)
  end.

Fixpoint adicionales_loop (rnd : nat -> Q) (k : nat) (rates : Json)
  (fechas : list string) : Result (list Row) :=
  match fechas with
  | [] => Ok []
  | fecha :: fechas' =>
      let* items := py_items rates in
      let* p := adicionales_de_fecha rnd k fecha (firstn 10 items) in
      let* rest := adicionales_loop rnd (snd p) rates fechas' in
      Ok (fst p ++ rest)
  end.

Definition columnas_adicionales : list (string * Dtype) :=
  [("producto_id", DObject); ("rating", DObject); ("volumen", DFloat64);
   ("fecha", DObject)].

Definition extraer_api_datos_adicionales (data : Json) (hoy : Date) (rnd : nat -> Q)
  (dias_historico : Z) : Result Table :=
  let* fechas := generar_fechas_historicas hoy dias_historico in
  let* tiene_data := py_in "data" data in
  let* cond := if tiene_data then let* d := py_getitem data "data" in py_in "rates" d
               else Ok false in
  let* adicionales :=
    if cond then
      let* d := py_getitem data "data" in
      let* rates := py_getitem d "rates" in
      adicionales_loop rnd 0 rates fechas
    else Ok [] in
  let df := data_frame columnas_adicionales adicionales in
  let* _ := validar_dataframe_basico (Some df) "Datos Adicionales" in
  Ok df.

(** ** [extraer_todas_las_fuentes] (extractor.py lines 236-267): the
    dict of the three tables.  Each extractor makes its own request and
    reads the clock itself; [rnd_tipos] and [rnd_adicionales] are the
    continuation of the one random generator after the previous
    extractors' draws. *)

Record Fuentes : Type := mkFuentes {
  productos : Table;
  tipos_cambio : Table;
  adicionales : Table
}.

Definition extraer_todas_las_fuentes (data_productos data_tipos data_adicionales : Json)
  (hoy_productos hoy_tipos hoy_adicionales : Date)
  (rnd_productos rnd_tipos rnd_adicionales : nat -> Q) (dias_historico : Z)
  : Result Fuentes :=
  let* p := extraer_api_productos data_productos hoy_productos rnd_productos dias_historico in
  let* t := extraer_api_tipos_cambio data_tipos hoy_tipos rnd_tipos "USD" dias_historico in
  let* a := extraer_api_datos_adicionales data_adicionales hoy_adicionales rnd_adicionales
              dias_historico in
  Ok (mkFuentes p t a).

(** ** Predicates used in the statements *)

(** A row of the product extractor with a non-negative [precio_usd]. *)
Definition fila_precio_no_negativo (r : Row) : Prop :=
  exists a b c d q, r = [a; b; VNum q; c; d] /\ 0 <= q.

(** A calendar date in the range of Python's [date]. *)
Definition fecha_valida (d : Date) : Prop :=
  (1 <= year d <= 9999 /\ 1 <= month d <= 12 /\ 1 <= day d <= 31)%Z.

(** Dates ordered as integers [yyyymmdd]. *)
Definition clave (d : Date) : Z := (year d * 10000 + month d * 100 + day d)%Z.

(** [producto_id] and [fecha] of a product-extractor row. *)
Definition id_y_fecha (r : Row) : option Val * option Val := (nth_error r 0, nth_error r 4).

(** The [(producto_id, fecha)] pairs of the batch generated for one date. *)
Definition lote_esperado (items : list (string * Json)) (f : string)
  : list (option Val * option Val) :=
  map (fun kv => (Some (VStr (String.append "CURR_" (fst kv))), Some (VStr f))) items.

(** Every row has one value per column, as in a DataFrame. *)
Definition bien_formada (t : Table) : Prop :=
  forallb (fun r => Nat.eqb (List.length r) (List.length (cols t))) (rows t) = true.

(** The value of row [rr] under column [c] ([VNull] when absent). *)
Definition nth_col (t : Table) (c : string) (rr : Row) : Val :=
  match index_of c (col_names t) with
  | Some i => nth i rr VNull
  | None => VNull
  end.

(** At most one row of [t] for each value of column [c]. *)
Definition clave_unica (t : Table) (c : string) : Prop :=
  forall v, (List.length (filter (fun rr => val_eqb v (nth_col t c rr)) (rows t)) <= 1)%nat.

(** No label occurs twice. *)
Fixpoint sin_repetidos (l : list string) : bool :=
  match l with
  | [] => true
  | x :: l' => negb (existsb (String.eqb x) l') && sin_repetidos l'
  end.

(** The column labels of [t] are distinct, as [df[c]] needs to return one
    column. *)
Definition etiquetas_distintas (t : Table) : Prop := sin_repetidos (col_names t) = true.

(** The number of rows of [t] whose column [c] equals [v] (missing values
    matching each other, as merge keys do). *)
Definition coincidencias (t : Table) (c : string) (v : Val) : nat :=
  List.length (filter (fun rr => val_eqb v (nth_col t c rr)) (rows t)).

(** Step 3 of [consolidar_datos]: the product table with a [fecha] column
    (today's date when it had none). *)
Definition productos_con_fecha (hoy : string) (P : Table) : Table :=
  if has_col P "fecha" then P else set_const P "fecha" DObject (VStr hoy).

(** ** Concrete inputs used by the counterexamples *)

(** Counterexample table for C4: a float column pair where filling the
    missing value creates a duplicate of an existing row. *)
Definition tabla_no_idempotente : Table :=
  mkTable [("a", DFloat64); ("b", DFloat64)] [[VNum 1; VNull]; [VNum 1; VNum 0]].

(** Counterexample table for C8: a [precio_usd] column without rows. *)
Definition tabla_precio_vacia : Table := mkTable [("precio_usd", DFloat64)] [].

(** Consolidation inputs for C1 and C2: two products dated today and
    yesterday, rates for EUR only, two supplemental rows for [P1]. *)
Definition productos_ejemplo : Table :=
  mkTable columnas_productos
    [[VStr "P1"; VStr "n"; VNum 2; VStr "c"; VStr "2026-10-16"];
     [VStr "P2"; VStr "n"; VNum 3; VStr "c"; VStr "2026-10-15"]].

Definition tipos_ejemplo : Table :=
  mkTable columnas_tipos [[VStr "2026-10-16"; VStr "USD"; VStr "EUR"; VNum 2]].

Definition adicionales_ejemplo : Table :=
  mkTable columnas_adicionales
    [[VStr "P1"; VStr "A"; VNum 5; VStr "2026-10-16"];
     [VStr "P1"; VStr "B+"; VNum 6; VStr "2026-10-15"]].

(** Two EUR rates for today: today's product [P1] matches both. *)
Definition tipos_repetidos : Table :=
  mkTable columnas_tipos
    [[VStr "2026-10-16"; VStr "USD"; VStr "EUR"; VNum 2];
     [VStr "2026-10-16"; VStr "USD"; VStr "EUR"; VNum 3]].



(** Inputs used to instantiate the theorems. *)
Definition tabla_de (r : Result Table) : Table :=
  match r with Ok t => t | Err _ => mkTable [] [] end.

Definition kvs_ejemplo : list (string * Json) :=
  [("base", JStr "USD"); ("rates", JObj [("ARS", JNum 1000); ("EUR", JNum (9 # 10))])].

Definition feed_ejemplo : Json := JObj kvs_ejemplo.

(** A rate written with an exponent, which [float()] accepts. *)
Definition feed_exponente : Json := JObj [("rates", JObj [("ARS", JStr "1e3")])].

Definition hoy_ejemplo : Date := mkDate 2026 10 16.

Definition rnd_cero (i : nat) : Q := 0.

Definition salida_ejemplo : Table :=
  tabla_de (consolidar_datos "2026-10-16" "2026-10-16 10:00:00"
              productos_ejemplo tipos_ejemplo adicionales_ejemplo "ARS").

Definition tipos_eur_repetidos : Table :=
  tabla_de (filtrar_tipo_cambio "2026-10-16" (limpiar_dataframe tipos_repetidos) "EUR").

Definition salida_repetidos : Table :=
  tabla_de (consolidar_datos "2026-10-16" "2026-10-16 10:00:00"
              productos_ejemplo tipos_repetidos adicionales_ejemplo "EUR").


(** Inputs used to instantiate the theorems on the remaining functions. *)
Definition tabla_precio_ejemplo : Table :=
  mkTable [("precio_usd", DFloat64); ("tipo_cambio", DFloat64)] [[VNum 2; VNull]].

(** A price table whose [precio_local] column holds only a missing value. *)
Definition tabla_precio_ejemplo_nulo : Table :=
  mkTable [("precio_usd", DFloat64); ("precio_local", DFloat64)] [[VNum 2; VNull]].

Definition resumen_de (r : Result Resumen) : Resumen :=
  match r with Ok x => x | Err _ => [] end.

Definition feed_adicionales_ejemplo : Json :=
  JObj [("data", JObj [("currency", JStr "USD");
                       ("rates", JObj [("BTC", JStr "0.00002"); ("ETH", JStr "0.0005")])])].

Definition tipos_salida_ejemplo : Table :=
  tabla_de (extraer_api_tipos_cambio feed_ejemplo hoy_ejemplo rnd_cero "USD" 2).

Definition adicionales_salida_ejemplo : Table :=
  tabla_de (extraer_api_datos_adicionales feed_adicionales_ejemplo hoy_ejemplo rnd_cero 2).

(** * Proofs *)

(** ** Cleaning *)

Lemma fill_val_idem (d : Dtype) (v : Val) : fill_val d (fill_val d v) = fill_val d v.
Proof. destruct v, d; reflexivity. Qed.

Lemma fill_row_idem (ds : list Dtype) (r : Row) :
  fill_row ds (fill_row ds r) = fill_row ds r.
Proof.
  revert r; induction ds as [|d ds IH]; intros [|v r]; simpl; try reflexivity.
  now rewrite fill_val_idem, IH.
Qed.

Lemma fill_row_not_all_null (ds : list Dtype) (r : Row) :
  forallb is_null r = false -> forallb is_null (fill_row ds r) = false.
Proof.
  revert r; induction ds as [|d ds IH]; intros [|v r] H; simpl in *; auto.
  destruct v; simpl in *; auto.
  destruct d; simpl; auto.
Qed.

Lemma drop_dup_aux_incl (seen rs : list Row) (r : Row) :
  In r (drop_dup_aux seen rs) -> In r rs.
Proof.
  revert seen; induction rs as [|x rs IH]; intros seen H; simpl in *; auto.
  destruct (existsb (row_eqb x) seen).
  - right; eapply IH; eauto.
  - destruct H as [<- | H]; [left; reflexivity | right; eapply IH; eauto].
Qed.

Lemma limpiar_rows_shape (t : Table) (r : Row) :
  In r (rows (limpiar_dataframe t)) ->
  exists r0, r = fill_row (map snd (cols t)) r0 /\ forallb is_null r0 = false.
Proof.
  unfold limpiar_dataframe, fillna, dropna_all, drop_duplicates; simpl.
  intros H; apply in_map_iff in H as [r0 [<- H]].
  apply filter_In in H as [_ H].
  exists r0; split; [reflexivity|].
  now destruct (forallb is_null r0).
Qed.

(** ** Price derivation *)

(** C7: when the price column or the exchange-rate column is absent,
    [calcular_precio_local] does not raise and returns its input table
    unchanged (no [precio_local] or [moneda_local] column, no other change). *)
Theorem calcular_precio_local_sin_columnas (df : Table) (m : string) :
  has_col df "precio_usd" = false \/ has_col df "tipo_cambio" = false ->
  calcular_precio_local df m = Ok df.
Proof.
  intros [H | H]; unfold calcular_precio_local; rewrite H; simpl; [reflexivity|].
  now destruct (has_col df "precio_usd").
Qed.

(** C4 (corrected): cleaning twice equals cleaning once followed by a
    second duplicate removal; filling missing values after the duplicate
    removal can create new duplicate rows, which only the second pass
    removes. *)
Theorem limpiar_dos_veces (t : Table) :
  limpiar_dataframe (limpiar_dataframe t) = drop_duplicates (limpiar_dataframe t).
Proof.
  set (c := limpiar_dataframe t).
  assert (Hc : forall r, In r (rows c) ->
                 fill_row (map snd (cols c)) r = r /\ forallb is_null r = false).
  { intros r Hr. destruct (limpiar_rows_shape t r Hr) as [r0 [-> H0]].
    split.
    - apply fill_row_idem.
    - now apply fill_row_not_all_null. }
  unfold limpiar_dataframe at 1, fillna, dropna_all, drop_duplicates; simpl.
  f_equal.
  rewrite (filter_ext_in _ (fun _ => true)).
  - rewrite filter_true.
    rewrite map_ext_in with (g := fun r => r).
    + apply map_id.
    + intros r Hr. apply Hc. eapply drop_dup_aux_incl; eauto.
  - intros r Hr. apply drop_dup_aux_incl in Hr.
    now rewrite (proj2 (Hc r Hr)).
Qed.

(** C4 counterexample: cleaning is not idempotent on
    [tabla_no_idempotente]. *)
Lemma limpiar_no_idempotente :
  limpiar_dataframe (limpiar_dataframe tabla_no_idempotente)
  <> limpiar_dataframe tabla_no_idempotente.
Proof. vm_compute. discriminate. Qed.

(** ** Summary *)

Lemma has_key_app (r1 r2 : Resumen) (k : string) :
  has_key (r1 ++ r2) k = has_key r1 k || has_key r2 k.
Proof. unfold has_key; apply existsb_app. Qed.

(** C8 counterexample: a table with a [precio_usd] column and no rows still
    gets a [precio_usd] statistics block (of missing values). *)
Lemma resumen_bloque_con_columna_vacia :
  rows tabla_precio_vacia = [] /\
  generar_resumen_estadistico "2026-10-16 00:00:00" tabla_precio_vacia =
    Ok [("total_registros", SNat 0); ("total_columnas", SNat 1);
        ("columnas", SNames ["precio_usd"]);
        ("fecha_procesamiento", SText "2026-10-16 00:00:00");
        ("precio_usd", SStats None None None None)] /\
  has_key [("total_registros", SNat 0); ("total_columnas", SNat 1);
           ("columnas", SNames ["precio_usd"]);
           ("fecha_procesamiento", SText "2026-10-16 00:00:00");
           ("precio_usd", SStats None None None None)] "precio_usd" = true.
Proof. split; [reflexivity|]. split; vm_compute; reflexivity. Qed.

(** ** Validation and extractors on empty or degenerate feeds *)

Lemma validar_ok_iff (df : option Table) (nombre : string) :
  validar_dataframe_basico df nombre <> Ok tt <->
  (df = None \/ exists t, df = Some t /\ rows t = []).
Proof.
  destruct df as [t|]; simpl.
  - destruct (rows t) eqn:R; split; intros H.
    + right; eauto.
    + discriminate.
    + exfalso; apply H; reflexivity.
    + destruct H as [H | [t' [H R']]]; [discriminate|].
      inversion H; subst; congruence.
  - split; intros _; [left; reflexivity | discriminate].
Qed.

Lemma validar_err (df : option Table) (nombre : string) (e : PyErr) :
  validar_dataframe_basico df nombre = Err e -> e = EEmpty nombre.
Proof.
  destruct df as [t|]; simpl; [destruct (rows t)|]; intros H; inversion H; reflexivity.
Qed.

Lemma validar_data_frame_ok (cs : list (string * Dtype)) (rs : list Row) (nombre : string) :
  validar_dataframe_basico (Some (data_frame cs rs)) nombre = Ok tt ->
  rows (data_frame cs rs) <> [].
Proof. destruct rs; simpl; [discriminate | intros _; discriminate]. Qed.

Lemma tipos_loop_sin_rates (rnd : nat -> Q) (k : nat) (mb : string) (fs : list string) :
  tipos_loop rnd k mb (JObj []) fs = Ok [].
Proof. revert k; induction fs as [|f fs IH]; intros k; simpl; [reflexivity|]. now rewrite IH. Qed.

Lemma generar_fechas_no_positivo (hoy : Date) (n : Z) :
  (n <= 0)%Z -> generar_fechas_historicas hoy n = Ok [].
Proof.
  intros H. unfold generar_fechas_historicas, py_range.
  replace (Z.to_nat n) with 0%nat by lia. reflexivity.
Qed.

Lemma generar_fechas_un_dia (hoy : Date) :
  generar_fechas_historicas hoy 1 = Ok [strftime_ymd hoy].
Proof. reflexivity. Qed.

Lemma validado_no_vacio (df0 : Table) (nombre : string) (df : Table) :
  bind (validar_dataframe_basico (Some df0) nombre) (fun _ => Ok df0) = Ok df ->
  rows df <> [].
Proof.
  simpl. destruct (rows df0) eqn:R; simpl; intros H; inversion H; subst; congruence.
Qed.

Lemma extraer_productos_no_vacio (data : Json) (hoy : Date) (rnd : nat -> Q) (n : Z) (df : Table) :
  extraer_api_productos data hoy rnd n = Ok df -> rows df <> [].
Proof.
  unfold extraer_api_productos.
  destruct (generar_fechas_historicas hoy n); cbn [bind]; [|inversion 1].
  destruct (py_in "rates" data) as [b|]; cbn [bind]; [|inversion 1].
  destruct (if b then productos_loop rnd 0 data a else Ok []); cbn [bind]; [|inversion 1].
  apply validado_no_vacio.
Qed.

Lemma extraer_tipos_no_vacio (data : Json) (hoy : Date) (rnd : nat -> Q) (mb : string)
  (n : Z) (df : Table) :
  extraer_api_tipos_cambio data hoy rnd mb n = Ok df -> rows df <> [].
Proof.
  unfold extraer_api_tipos_cambio.
  destruct (py_get data "rates"); cbn [bind]; [|inversion 1].
  destruct (generar_fechas_historicas hoy n); cbn [bind]; [|inversion 1].
  destruct (tipos_loop rnd 0 mb a a0); cbn [bind]; [|inversion 1].
  apply validado_no_vacio.
Qed.

Lemma extraer_adicionales_no_vacio (data : Json) (hoy : Date) (rnd : nat -> Q) (n : Z)
  (df : Table) :
  extraer_api_datos_adicionales data hoy rnd n = Ok df -> rows df <> [].
Proof.
  unfold extraer_api_datos_adicionales.
  destruct (generar_fechas_historicas hoy n); cbn [bind]; [|inversion 1].
  destruct (py_in "data" data) as [b|]; cbn [bind]; [|inversion 1].
  destruct (if b then bind (py_getitem data "data") (fun d => py_in "rates" d) else Ok false)
    as [c|]; cbn [bind]; [|inversion 1].
  destruct (if c then bind (py_getitem data "data")
                (fun d => bind (py_getitem d "rates") (fun rates => adicionales_loop rnd 0 rates a))
            else Ok []); cbn [bind]; [|inversion 1].
  apply validado_no_vacio.
Qed.

Lemma assoc_existsb (k : string) (kvs : list (string * Json)) :
  existsb (fun kv => String.eqb (fst kv) k) kvs = true -> exists v, assoc k kvs = Some v.
Proof.
  induction kvs as [|[k' v'] kvs IH]; simpl; [discriminate|].
  destruct (String.eqb k' k); simpl; eauto.
Qed.

Lemma assoc_some_existsb (k : string) (kvs : list (string * Json)) (v : Json) :
  assoc k kvs = Some v -> existsb (fun kv => String.eqb (fst kv) k) kvs = true.
Proof.
  induction kvs as [|[k' v'] kvs IH]; simpl; [discriminate|].
  destruct (String.eqb k' k); simpl; auto.
Qed.

(** Only the validator raises the empty-result error: the conversions of a
    rate and the per-date loops never do. *)
Ltac sin_vacio_conv :=
  repeat match goal with
  | |- context [match ?x with _ => _ end] => destruct x
  | |- context [if ?b then _ else _] => destruct b
  end; cbn; discriminate.

Lemma precio_base_sin_vacio (tasa : Json) (n : string) : precio_base_de tasa <> Err (EEmpty n).
Proof. unfold precio_base_de, py_gt0, py_inv. destruct tasa; cbn [bind]; sin_vacio_conv. Qed.

Lemma py_float_sin_vacio (x : Json) (n : string) : py_float x <> Err (EEmpty n).
Proof. unfold py_float. destruct x; sin_vacio_conv. Qed.

Lemma celda_sin_vacio (k : nat) (x : PyNum) (n : string) : celda_redondeada k x <> Err (EEmpty n).
Proof. destruct x; discriminate. Qed.

Lemma productos_de_fecha_un_dia (rnd : nat -> Q) (k : nat) (f : string)
  (items : list (string * Json)) (n : string) :
  (forall p, productos_de_fecha rnd k f items = Ok p -> List.length (fst p) = List.length items) /\
  productos_de_fecha rnd k f items <> Err (EEmpty n).
Proof.
  revert k; induction items as [|[m t] items IH]; intros k; simpl.
  - split; [intros p E; inversion E; reflexivity | discriminate].
  - destruct (precio_base_de t) as [b|e] eqn:B; cbn [bind].
    + destruct (IH (S k)) as [IL IE].
      destruct (productos_de_fecha rnd (S k) f items) as [r|e] eqn:R; cbn [bind].
      * split; [intros p E; inversion E; subst; simpl; now rewrite (IL r eq_refl)|discriminate].
      * split; [discriminate | exact IE].
    + split; [discriminate|]. intros H. injection H as ->. exact (precio_base_sin_vacio t n B).
Qed.

Lemma tipos_de_fecha_un_dia (rnd : nat -> Q) (k : nat) (mb f : string)
  (items : list (string * Json)) (n : string) :
  (forall p, tipos_de_fecha rnd k mb f items = Ok p -> List.length (fst p) = List.length items) /\
  tipos_de_fecha rnd k mb f items <> Err (EEmpty n).
Proof.
  revert k; induction items as [|[m t] items IH]; intros k; simpl.
  - split; [intros p E; inversion E; reflexivity | discriminate].
  - destruct (py_float t) as [x|e] eqn:X; cbn [bind].
    2:{ split; [discriminate|]. intros H. injection H as ->. exact (py_float_sin_vacio t n X). }
    destruct (celda_redondeada 4 _) as [c|e] eqn:C; cbn [bind].
    2:{ split; [discriminate|]. intros H. injection H as ->. exact (celda_sin_vacio _ _ n C). }
    destruct (IH (S k)) as [IL IE].
    destruct (tipos_de_fecha rnd (S k) mb f items) as [r|e] eqn:R; cbn [bind].
    + split; [intros p E; inversion E; subst; simpl; now rewrite (IL r eq_refl)|discriminate].
    + split; [discriminate | exact IE].
Qed.

Lemma adicionales_de_fecha_un_dia (rnd : nat -> Q) (k : nat) (f : string)
  (items : list (string * Json)) (n : string) :
  (forall p, adicionales_de_fecha rnd k f items = Ok p -> List.length (fst p) = List.length items) /\
  adicionales_de_fecha rnd k f items <> Err (EEmpty n).
Proof.
  revert k; induction items as [|[m t] items IH]; intros k; simpl.
  - split; [intros p E; inversion E; reflexivity | discriminate].
  - destruct (py_float t) as [x|e] eqn:X; cbn [bind].
    2:{ split; [discriminate|]. intros H. injection H as ->. exact (py_float_sin_vacio t n X). }
    destruct (celda_redondeada 2 _) as [c|e] eqn:C; cbn [bind].
    2:{ split; [discriminate|]. intros H. injection H as ->. exact (celda_sin_vacio _ _ n C). }
    destruct (IH (S (S k))) as [IL IE].
    destruct (adicionales_de_fecha rnd (S (S k)) f items) as [r|e] eqn:R; cbn [bind].
    + split; [intros p E; inversion E; subst; simpl; now rewrite (IL r eq_refl)|discriminate].
    + split; [discriminate | exact IE].
Qed.

Lemma validado_sin_vacio (cs : list (string * Dtype)) (rs : list Row) (nombre n : string) :
  rs <> [] ->
  bind (validar_dataframe_basico (Some (data_frame cs rs)) nombre)
       (fun _ => Ok (data_frame cs rs)) <> Err (EEmpty n).
Proof. destruct rs; [congruence|]. intros _. simpl. discriminate. Qed.

Lemma extraer_productos_un_dia (kvs items : list (string * Json)) (k : string) (v : Json)
  (hoy : Date) (rnd : nat -> Q) (n : string) :
  assoc "rates" kvs = Some (JObj ((k, v) :: items)) ->
  extraer_api_productos (JObj kvs) hoy rnd 1 <> Err (EEmpty n).
Proof.
  intros A. unfold extraer_api_productos. rewrite generar_fechas_un_dia. cbn [bind py_in].
  rewrite (assoc_some_existsb _ _ _ A). cbn [productos_loop bind py_getitem].
  rewrite A. cbn [bind py_items].
  destruct (productos_de_fecha_un_dia rnd 0 (strftime_ymd hoy) ((k, v) :: items) n) as [IL IE].
  destruct (productos_de_fecha rnd 0 (strftime_ymd hoy) ((k, v) :: items)) as [p|e] eqn:P;
    cbn [bind productos_loop].
  - rewrite app_nil_r. apply validado_sin_vacio.
    intros E. pose proof (IL p eq_refl) as L. rewrite E in L. discriminate.
  - intros H. injection H as ->. exact (IE eq_refl).
Qed.

Lemma extraer_tipos_un_dia (kvs items : list (string * Json)) (k : string) (v : Json)
  (hoy : Date) (rnd : nat -> Q) (mb n : string) :
  assoc "rates" kvs = Some (JObj ((k, v) :: items)) ->
  extraer_api_tipos_cambio (JObj kvs) hoy rnd mb 1 <> Err (EEmpty n).
Proof.
  intros A. unfold extraer_api_tipos_cambio. cbn [py_get]. rewrite A. cbn [bind].
  rewrite generar_fechas_un_dia. cbn [bind tipos_loop py_items].
  destruct (tipos_de_fecha_un_dia rnd 0 mb (strftime_ymd hoy) ((k, v) :: items) n) as [IL IE].
  destruct (tipos_de_fecha rnd 0 mb (strftime_ymd hoy) ((k, v) :: items)) as [p|e] eqn:P;
    cbn [bind tipos_loop].
  - rewrite app_nil_r. apply validado_sin_vacio.
    intros E. pose proof (IL p eq_refl) as L. rewrite E in L. discriminate.
  - intros H. injection H as ->. exact (IE eq_refl).
Qed.

Lemma extraer_adicionales_un_dia (kvs dkvs items : list (string * Json)) (k : string)
  (v : Json) (hoy : Date) (rnd : nat -> Q) (n : string) :
  assoc "data" kvs = Some (JObj dkvs) ->
  assoc "rates" dkvs = Some (JObj ((k, v) :: items)) ->
  extraer_api_datos_adicionales (JObj kvs) hoy rnd 1 <> Err (EEmpty n).
Proof.
  intros A D.
  assert (PI : py_in "data" (JObj kvs) = Ok true)
    by (simpl; now rewrite (assoc_some_existsb _ _ _ A)).
  assert (PG : py_getitem (JObj kvs) "data" = Ok (JObj dkvs)) by (simpl; now rewrite A).
  assert (PR : py_in "rates" (JObj dkvs) = Ok true)
    by (simpl; now rewrite (assoc_some_existsb _ _ _ D)).
  assert (PG2 : py_getitem (JObj dkvs) "rates" = Ok (JObj ((k, v) :: items)))
    by (simpl; now rewrite D).
  unfold extraer_api_datos_adicionales. rewrite generar_fechas_un_dia. cbn [bind].
  rewrite PI. cbn [bind]. rewrite PG. cbn [bind]. rewrite PR. cbn [bind].
  rewrite PG2. cbn [bind adicionales_loop py_items].
  change (firstn 10 ((k, v) :: items)) with ((k, v) :: firstn 9 items).
  destruct (adicionales_de_fecha_un_dia rnd 0 (strftime_ymd hoy) ((k, v) :: firstn 9 items) n)
    as [IL IE].
  destruct (adicionales_de_fecha rnd 0 (strftime_ymd hoy) ((k, v) :: firstn 9 items))
    as [p|e] eqn:P; cbn [bind adicionales_loop].
  - rewrite app_nil_r. apply validado_sin_vacio.
    intros E. pose proof (IL p eq_refl) as L. rewrite E in L. discriminate.
  - intros H. injection H as ->. exact (IE eq_refl).
Qed.

(** C5: the validator fails, always with the empty-result error naming the
    source, exactly when the table is absent or has no rows; every extractor
    called on the feed [{}] raises that error (once its dates are computed,
    which never fails for one day); no extractor, in particular with
    [dias_historico = 1], ever returns a table with zero rows; and with
    [dias_historico = 1], a feed whose rates object has at least one entry
    never makes an extractor raise the empty-result error: it returns a
    table with rows, or fails on a rate for another reason. *)
Theorem validacion_y_extractores :
  (forall df nombre,
     validar_dataframe_basico df nombre <> Ok tt <->
     (df = None \/ exists t, df = Some t /\ rows t = [])) /\
  (forall df nombre e, validar_dataframe_basico df nombre = Err e -> e = EEmpty nombre) /\
  (forall hoy rnd n,
     extraer_api_productos (JObj []) hoy rnd n =
     bind (generar_fechas_historicas hoy n) (fun _ => Err (EEmpty "Productos"))) /\
  (forall hoy rnd mb n,
     extraer_api_tipos_cambio (JObj []) hoy rnd mb n =
     bind (generar_fechas_historicas hoy n) (fun _ => Err (EEmpty "Tipos de Cambio"))) /\
  (forall hoy rnd n,
     extraer_api_datos_adicionales (JObj []) hoy rnd n =
     bind (generar_fechas_historicas hoy n) (fun _ => Err (EEmpty "Datos Adicionales"))) /\
  (forall hoy rnd,
     extraer_api_productos (JObj []) hoy rnd 1 = Err (EEmpty "Productos")) /\
  (forall data hoy rnd df, extraer_api_productos data hoy rnd 1 = Ok df -> rows df <> []) /\
  (forall data hoy rnd mb df, extraer_api_tipos_cambio data hoy rnd mb 1 = Ok df -> rows df <> []) /\
  (forall data hoy rnd df, extraer_api_datos_adicionales data hoy rnd 1 = Ok df -> rows df <> []) /\
  (forall kvs items k v hoy rnd n, assoc "rates" kvs = Some (JObj ((k, v) :: items)) ->
     extraer_api_productos (JObj kvs) hoy rnd 1 <> Err (EEmpty n)) /\
  (forall kvs items k v hoy rnd mb n, assoc "rates" kvs = Some (JObj ((k, v) :: items)) ->
     extraer_api_tipos_cambio (JObj kvs) hoy rnd mb 1 <> Err (EEmpty n)) /\
  (forall kvs dkvs items k v hoy rnd n, assoc "data" kvs = Some (JObj dkvs) ->
     assoc "rates" dkvs = Some (JObj ((k, v) :: items)) ->
     extraer_api_datos_adicionales (JObj kvs) hoy rnd 1 <> Err (EEmpty n)).
Proof.
  split; [exact validar_ok_iff|].
  split; [exact validar_err|].
  split; [intros hoy rnd n; unfold extraer_api_productos;
          destruct (generar_fechas_historicas hoy n); reflexivity|].
  split; [intros hoy rnd mb n; unfold extraer_api_tipos_cambio; cbn [py_get assoc bind];
          destruct (generar_fechas_historicas hoy n); cbn [bind]; [|reflexivity];
          rewrite tipos_loop_sin_rates; reflexivity|].
  split; [intros hoy rnd n; unfold extraer_api_datos_adicionales;
          destruct (generar_fechas_historicas hoy n); reflexivity|].
  split; [intros hoy rnd; reflexivity|].
  split; [intros data hoy rnd df; apply extraer_productos_no_vacio|].
  split; [intros data hoy rnd mb df; apply extraer_tipos_no_vacio|].
  split; [intros data hoy rnd df; apply extraer_adicionales_no_vacio|].
  split; [intros kvs items k v hoy rnd n; apply extraer_productos_un_dia|].
  split; [intros kvs items k v hoy rnd mb n; apply extraer_tipos_un_dia|].
  intros kvs dkvs items k v hoy rnd n; apply extraer_adicionales_un_dia.
Qed.

(** C9: with [dias_historico <= 0] no date is generated, so every extractor
    raises the empty-table validation error for any well-formed feed (a
    JSON object, whose [data] entry, for the supplemental source, is an
    object), whatever rates it carries. *)
Theorem extractores_sin_dias (hoy : Date) (rnd : nat -> Q) (n : Z)
  (kvs : list (string * Json)) (mb : string) :
  (n <= 0)%Z ->
  (forall d, assoc "data" kvs = Some d -> exists kvs', d = JObj kvs') ->
  extraer_api_productos (JObj kvs) hoy rnd n = Err (EEmpty "Productos") /\
  extraer_api_tipos_cambio (JObj kvs) hoy rnd mb n = Err (EEmpty "Tipos de Cambio") /\
  extraer_api_datos_adicionales (JObj kvs) hoy rnd n = Err (EEmpty "Datos Adicionales").
Proof.
  intros Hn Hd.
  split; [|split].
  - unfold extraer_api_productos. rewrite generar_fechas_no_positivo by exact Hn.
    cbn [bind py_in]. destruct (existsb _ kvs); reflexivity.
  - unfold extraer_api_tipos_cambio. cbn [py_get].
    destruct (assoc "rates" kvs); cbn [bind];
      rewrite generar_fechas_no_positivo by exact Hn; reflexivity.
  - unfold extraer_api_datos_adicionales. rewrite generar_fechas_no_positivo by exact Hn.
    cbn [bind py_in].
    destruct (existsb (fun kv => String.eqb (fst kv) "data") kvs) eqn:E; [|reflexivity].
    destruct (assoc_existsb _ _ E) as [d Ad].
    destruct (Hd d Ad) as [kvs' ->].
    cbn [py_getitem]. rewrite Ad. cbn [bind py_in].
    destruct (existsb (fun kv => String.eqb (fst kv) "rates") kvs') eqn:E'; [|reflexivity].
    destruct (assoc_existsb _ _ E') as [r Ar].
    cbn [bind py_getitem]. rewrite Ar. reflexivity.
Qed.

(** ** Product prices *)

Lemma round_half_even_nonneg (x : Q) : 0 <= x -> (0 <= round_half_even x)%Z.
Proof.
  destruct x as [n d]; unfold Qle, round_half_even; simpl; intros H.
  assert (Hn : (0 <= n)%Z) by lia.
  assert (Hf : (0 <= n / Z.pos d)%Z) by (apply Z.div_pos; lia).
  destruct (Z.compare _ _); [destruct (Z.even _)|..]; lia.
Qed.

Lemma scale_pos (k : nat) : 0 < scale k.
Proof.
  unfold scale, Qlt; simpl. rewrite Z.mul_1_r.
  apply Z.pow_pos_nonneg; lia.
Qed.

Lemma round_dec_nonneg (k : nat) (x : Q) : 0 <= x -> 0 <= round_dec k x.
Proof.
  intros H. unfold round_dec.
  apply Qle_shift_div_l; [apply scale_pos|].
  rewrite Qmult_0_l.
  assert (Hy : 0 <= x * scale k)
    by (apply Qmult_le_0_compat; [exact H | apply Qlt_le_weak, scale_pos]).
  pose proof (round_half_even_nonneg _ Hy) as Hz.
  unfold Qle; simpl; lia.
Qed.

Lemma precio_base_nonneg (tasa : Json) (q : Q) :
  precio_base_de tasa = Ok q -> 0 <= q.
Proof.
  unfold precio_base_de.
  destruct tasa as [| b | p | | |]; cbn [py_gt0 bind]; try (inversion 1; fail).
  - destruct b; cbn; inversion 1; subst; discriminate.
  - destruct (negb (Qle_bool p 0)) eqn:Hp; cbn [py_inv].
    + destruct (Qeq_bool p 0); inversion 1; subst.
      apply Qlt_le_weak, Qinv_lt_0_compat.
      apply negb_true_iff in Hp.
      apply Qnot_le_lt. intros Hle. apply Qle_bool_iff in Hle. congruence.
    + inversion 1; subst; discriminate.
Qed.

Lemma precio_base_sin_division_por_cero (tasa : Json) :
  precio_base_de tasa <> Err EZeroDiv.
Proof.
  unfold precio_base_de.
  destruct tasa as [| b | p | | |]; cbn [py_gt0 bind]; try discriminate.
  - destruct b; discriminate.
  - destruct (negb (Qle_bool p 0)) eqn:Hp; cbn [py_inv]; [|discriminate].
    destruct (Qeq_bool p 0) eqn:H0; [|discriminate].
    exfalso. apply Qeq_bool_iff in H0.
    apply negb_true_iff in Hp. rewrite H0 in Hp. discriminate.
Qed.

Lemma precio_base_no_positivo (q : Q) : q <= 0 -> precio_base_de (JNum q) = Ok 0.
Proof.
  intros H. unfold precio_base_de; cbn [py_gt0 bind].
  apply Qle_bool_iff in H. rewrite H. reflexivity.
Qed.

Lemma productos_de_fecha_precios (rnd : nat -> Q) (k : nat) (f : string)
  (items : list (string * Json)) (rs : list Row) (k' : nat) :
  (forall i, 0 <= rnd i) ->
  productos_de_fecha rnd k f items = Ok (rs, k') ->
  Forall fila_precio_no_negativo rs.
Proof.
  intros Hr. revert k rs k'.
  induction items as [|[moneda tasa] items IH]; intros k rs k'; cbn [productos_de_fecha].
  - inversion 1; constructor.
  - destruct (precio_base_de tasa) as [pb|] eqn:Pb; cbn [bind]; [|inversion 1].
    destruct (productos_de_fecha rnd (S k) f items) as [[rs0 k0]|] eqn:P; cbn [bind];
      [|inversion 1].
    inversion 1; subst. constructor; [|eapply IH; eauto].
    do 5 eexists; split; [reflexivity|].
    apply round_dec_nonneg, Qmult_le_0_compat; [eapply precio_base_nonneg; eauto|].
    unfold uniform.
    change (0 + 0 <= (95 # 100) + ((105 # 100) - (95 # 100)) * rnd k).
    apply Qplus_le_compat.
    + discriminate.
    + apply Qmult_le_0_compat; [discriminate | apply Hr].
Qed.

Lemma productos_loop_precios (rnd : nat -> Q) (k : nat) (data : Json)
  (fs : list string) (rs : list Row) :
  (forall i, 0 <= rnd i) ->
  productos_loop rnd k data fs = Ok rs -> Forall fila_precio_no_negativo rs.
Proof.
  intros Hr. revert k rs.
  induction fs as [|f fs IH]; intros k rs; cbn [productos_loop].
  - inversion 1; constructor.
  - destruct (py_getitem data "rates"); cbn [bind]; [|inversion 1].
    destruct (py_items a) as [items|]; cbn [bind]; [|inversion 1].
    destruct (productos_de_fecha rnd k f items) as [[rs0 k0]|] eqn:P; cbn [bind fst snd];
      [|inversion 1].
    destruct (productos_loop rnd k0 data fs) eqn:L; cbn [bind]; [|inversion 1].
    inversion 1; subst. apply Forall_app; split; [eapply productos_de_fecha_precios; eauto|].
    eapply IH; eauto.
Qed.

Lemma sub_days_err (d : Date) (i : nat) (e : PyErr) : sub_days d i = Err e -> e = EOverflow.
Proof.
  revert e; induction i as [|i IH]; intros e; cbn [sub_days]; [inversion 1|].
  destruct (sub_days d i) as [d'|e'] eqn:S; cbn [bind].
  - unfold pred_day. destruct (Z.ltb 1 (day d')); [inversion 1|].
    destruct (Z.ltb 1 (month d')); [inversion 1|].
    destruct (Z.ltb 1 (year d')); inversion 1; reflexivity.
  - inversion 1; subst; apply IH; reflexivity.
Qed.

Lemma generar_fechas_err (hoy : Date) (n : Z) (e : PyErr) :
  generar_fechas_historicas hoy n = Err e -> e = EOverflow.
Proof.
  unfold generar_fechas_historicas. generalize (py_range n) as is. intros is.
  induction is as [|i is IH]; cbn [mapM]; [inversion 1|].
  destruct (sub_days hoy i) eqn:S; cbn [bind].
  - destruct (mapM _ is); cbn [bind]; [inversion 1|]. intros H; inversion H; subst; auto.
  - inversion 1; subst. eapply sub_days_err; eauto.
Qed.

Lemma productos_de_fecha_no_zerodiv (rnd : nat -> Q) (k : nat) (f : string)
  (items : list (string * Json)) :
  productos_de_fecha rnd k f items <> Err EZeroDiv.
Proof.
  revert k; induction items as [|[moneda tasa] items IH]; intros k; cbn [productos_de_fecha];
    [discriminate|].
  destruct (precio_base_de tasa) eqn:Pb; cbn [bind].
  - specialize (IH (S k)). destruct (productos_de_fecha rnd (S k) f items); cbn [bind];
      [discriminate | exact IH].
  - intros H; inversion H; subst. exact (precio_base_sin_division_por_cero tasa Pb).
Qed.

Lemma productos_loop_no_zerodiv (rnd : nat -> Q) (k : nat) (data : Json) (fs : list string) :
  productos_loop rnd k data fs <> Err EZeroDiv.
Proof.
  revert k; induction fs as [|f fs IH]; intros k; cbn [productos_loop]; [discriminate|].
  destruct (py_getitem data "rates") as [rates|e] eqn:G; cbn [bind].
  2:{ unfold py_getitem in G. destruct data; try (inversion G; discriminate).
      destruct (assoc "rates" kvs); inversion G; discriminate. }
  destruct (py_items rates) as [items|e] eqn:I; cbn [bind].
  2:{ unfold py_items in I. destruct rates; inversion I; discriminate. }
  pose proof (productos_de_fecha_no_zerodiv rnd k f items) as P.
  destruct (productos_de_fecha rnd k f items) as [[rs k0]|e]; cbn [bind fst snd];
    [|intros H; inversion H; subst; apply P; reflexivity].
  specialize (IH k0). destruct (productos_loop rnd k0 data fs); cbn [bind];
    [discriminate | exact IH].
Qed.

(** C10: the inversion of each rate in the product extractor is guarded: a
    rate [<= 0] gives a base price of [0] without dividing, the guarded
    expression never divides by zero, the extractor never raises
    ZeroDivisionError, and (with [random.random()] values [>= 0]) every
    produced [precio_usd] is a number [>= 0]. *)
Theorem extraer_productos_precios_no_negativos :
  (forall q, q <= 0 -> precio_base_de (JNum q) = Ok 0) /\
  (forall tasa, precio_base_de tasa <> Err EZeroDiv) /\
  (forall data hoy rnd n, extraer_api_productos data hoy rnd n <> Err EZeroDiv) /\
  (forall data hoy rnd n df,
     (forall i, 0 <= rnd i) ->
     extraer_api_productos data hoy rnd n = Ok df ->
     forall r, In r (rows df) ->
     exists q, cell df r "precio_usd" = Some (VNum q) /\ 0 <= q).
Proof.
  split; [exact precio_base_no_positivo|].
  split; [exact precio_base_sin_division_por_cero|].
  split.
  - intros data hoy rnd n. unfold extraer_api_productos.
    destruct (generar_fechas_historicas hoy n) as [fs|e] eqn:G; cbn [bind].
    2:{ apply generar_fechas_err in G; subst; discriminate. }
    destruct (py_in "rates" data) as [b|e] eqn:I; cbn [bind].
    2:{ unfold py_in in I. destruct data; inversion I; discriminate. }
    destruct b.
    + pose proof (productos_loop_no_zerodiv rnd 0 data fs) as P.
      destruct (productos_loop rnd 0 data fs) as [ps|e]; cbn [bind];
        [|intros H; inversion H; subst; apply P; reflexivity].
      destruct ps; discriminate.
    + discriminate.
  - intros data hoy rnd n df Hr. unfold extraer_api_productos.
    destruct (generar_fechas_historicas hoy n) as [fs|e]; cbn [bind]; [|inversion 1].
    destruct (py_in "rates" data) as [b|e]; cbn [bind]; [|inversion 1].
    assert (Hps : forall ps, (if b then productos_loop rnd 0 data fs else Ok []) = Ok ps ->
                  Forall fila_precio_no_negativo ps).
    { intros ps. destruct b; [apply productos_loop_precios; exact Hr | inversion 1; constructor]. }
    destruct (if b then productos_loop rnd 0 data fs else Ok []) as [ps|e]; cbn [bind];
      [|inversion 1].
    specialize (Hps ps eq_refl).
    destruct ps as [|p ps]; [inversion 1|].
    cbn. intros H; inversion H; subst; clear H.
    intros r Hin. cbn [rows] in Hin.
    rewrite Forall_forall in Hps. destruct (Hps r Hin) as [a [b0 [c [d [q [-> Hq]]]]]].
    exists q; split; [reflexivity | exact Hq].
Qed.

(** ** Calendar dates *)

Lemma days_in_month_bounds (y m : Z) : (28 <= days_in_month y m <= 31)%Z.
Proof.
  unfold days_in_month.
  destruct (Z.eqb m 2); [destruct (is_leap y); lia|].
  destruct (Z.eqb m 4 || Z.eqb m 6 || Z.eqb m 9 || Z.eqb m 11); lia.
Qed.

Lemma pred_day_ok (d d' : Date) :
  fecha_valida d -> pred_day d = Ok d' -> fecha_valida d' /\ (clave d' < clave d)%Z.
Proof.
  unfold fecha_valida, clave, pred_day. intros Hv.
  destruct (Z.ltb 1 (day d)) eqn:D.
  { inversion 1; subst; simpl. apply Z.ltb_lt in D. lia. }
  destruct (Z.ltb 1 (month d)) eqn:M.
  { inversion 1; subst; simpl. apply Z.ltb_lt in M. apply Z.ltb_ge in D.
    pose proof (days_in_month_bounds (year d) (month d - 1)). lia. }
  destruct (Z.ltb 1 (year d)) eqn:Y; [|inversion 1].
  inversion 1; subst; simpl. apply Z.ltb_lt in Y. apply Z.ltb_ge in D. apply Z.ltb_ge in M. lia.
Qed.

Lemma sub_days_S (d : Date) (i : nat) (d' : Date) :
  sub_days d (S i) = Ok d' -> exists d0, sub_days d i = Ok d0 /\ pred_day d0 = Ok d'.
Proof.
  cbn [sub_days]. destruct (sub_days d i) as [d0|e]; cbn [bind]; [eauto | inversion 1].
Qed.

Lemma sub_days_valida (d : Date) (i : nat) (d' : Date) :
  fecha_valida d -> sub_days d i = Ok d' -> fecha_valida d'.
Proof.
  intros Hv; revert d'; induction i as [|i IH]; intros d' H.
  - inversion H; subst; exact Hv.
  - destruct (sub_days_S _ _ _ H) as [d0 [H0 P]].
    exact (proj1 (pred_day_ok d0 d' (IH d0 H0) P)).
Qed.

Lemma sub_days_decrece (d : Date) (i m : nat) (di dj : Date) :
  fecha_valida d -> sub_days d i = Ok di -> sub_days d (S m + i) = Ok dj ->
  (clave dj < clave di)%Z.
Proof.
  intros Hv Hi; revert dj; induction m as [|m IH]; intros dj Hj.
  - destruct (sub_days_S _ _ _ Hj) as [d0 [H0 P]].
    rewrite Hi in H0; inversion H0; subst.
    exact (proj2 (pred_day_ok _ _ (sub_days_valida _ _ _ Hv Hi) P)).
  - destruct (sub_days_S _ _ _ Hj) as [d0 [H0 P]].
    pose proof (IH d0 H0) as Lt.
    pose proof (proj2 (pred_day_ok _ _ (sub_days_valida _ _ _ Hv H0) P)). lia.
Qed.

Lemma digit_inj (a b : Z) : digit a = digit b -> (a mod 10 = b mod 10)%Z.
Proof.
  unfold digit. intros H.
  assert (Ha : (0 <= a mod 10 < 10)%Z) by (apply Z.mod_pos_bound; lia).
  assert (Hb : (0 <= b mod 10 < 10)%Z) by (apply Z.mod_pos_bound; lia).
  apply (f_equal nat_of_ascii) in H.
  rewrite !nat_ascii_embedding in H by lia.
  lia.
Qed.

Lemma strftime_ymd_inj (d1 d2 : Date) :
  fecha_valida d1 -> fecha_valida d2 -> strftime_ymd d1 = strftime_ymd d2 ->
  clave d1 = clave d2.
Proof.
  unfold fecha_valida, clave, strftime_ymd. intros H1 H2 E.
  injection E as Y1 Y2 Y3 Y4 M1 M2 D1 D2.
  apply digit_inj in Y1, Y2, Y3, Y4, M1, M2, D1, D2.
  Z.div_mod_to_equations. lia.
Qed.

Lemma mapM_nth {A B : Type} (f : A -> Result B) (l : list A) (ys : list B) :
  mapM f l = Ok ys ->
  List.length ys = List.length l /\
  forall i x, nth_error l i = Some x -> exists y, f x = Ok y /\ nth_error ys i = Some y.
Proof.
  revert ys; induction l as [|a l IH]; intros ys; cbn [mapM].
  - inversion 1; subst. split; [reflexivity|]. intros [|i] x; discriminate.
  - destruct (f a) as [b|e] eqn:F; cbn [bind]; [|inversion 1].
    destruct (mapM f l) as [bs|e] eqn:M; cbn [bind]; [|inversion 1].
    inversion 1; subst. destruct (IH bs eq_refl) as [Hl Hn].
    split; [simpl; now rewrite Hl|].
    intros [|i] x Hx; simpl in Hx.
    + inversion Hx; subst. eauto.
    + exact (Hn i x Hx).
Qed.

Lemma generar_fechas_spec (hoy : Date) (n : Z) (fs : list string) :
  fecha_valida hoy ->
  generar_fechas_historicas hoy n = Ok fs ->
  List.length fs = Z.to_nat n /\ NoDup fs /\
  (forall i, (i < Z.to_nat n)%nat ->
     exists d, sub_days hoy i = Ok d /\ nth_error fs i = Some (strftime_ymd d)).
Proof.
  intros Hv G. unfold generar_fechas_historicas, py_range in G.
  destruct (mapM_nth _ _ _ G) as [Hl Hn].
  rewrite length_seq in Hl.
  assert (Hi : forall i, (i < Z.to_nat n)%nat ->
            exists d, sub_days hoy i = Ok d /\ nth_error fs i = Some (strftime_ymd d)).
  { intros i Hi.
    assert (Hs : nth_error (seq 0 (Z.to_nat n)) i = Some i).
    { rewrite nth_error_seq. apply Nat.ltb_lt in Hi. now rewrite Hi. }
    destruct (Hn i i Hs) as [y [Fy Ny]].
    destruct (sub_days hoy i) as [d|e]; cbn [bind] in Fy; [|discriminate].
    inversion Fy; subst. eauto. }
  split; [exact Hl|]. split; [|exact Hi].
  apply NoDup_nth_error. intros i j Hlt E.
  rewrite Hl in Hlt.
  destruct (Nat.lt_ge_cases j (Z.to_nat n)) as [Hj | Hj].
  2:{ rewrite (proj2 (nth_error_None fs j)) in E by lia.
      destruct (Hi i Hlt) as [d [_ Nd]]. congruence. }
  destruct (Hi i Hlt) as [di [Si Ni]]. destruct (Hi j Hj) as [dj [Sj Nj]].
  rewrite Ni, Nj in E. assert (E' : strftime_ymd di = strftime_ymd dj) by congruence.
  apply strftime_ymd_inj in E';
    [|eapply sub_days_valida; eauto | eapply sub_days_valida; eauto].
  destruct (Nat.lt_total i j) as [L | [L | L]]; [| exact L |].
  - exfalso. replace j with (S (j - i - 1) + i)%nat in Sj by lia.
    pose proof (sub_days_decrece _ _ _ _ _ Hv Si Sj). lia.
  - exfalso. replace i with (S (i - j - 1) + j)%nat in Si by lia.
    pose proof (sub_days_decrece _ _ _ _ _ Hv Sj Si). lia.
Qed.

(** ** Rows of the product extractor *)

Lemma productos_de_fecha_forma (rnd : nat -> Q) (k : nat) (f : string)
  (items : list (string * Json)) (rs : list Row) (k' : nat) :
  productos_de_fecha rnd k f items = Ok (rs, k') ->
  map id_y_fecha rs = lote_esperado items f.
Proof.
  revert k rs k'.
  induction items as [|[moneda tasa] items IH]; intros k rs k'; cbn [productos_de_fecha].
  - inversion 1; reflexivity.
  - destruct (precio_base_de tasa) as [pb|]; cbn [bind]; [|inversion 1].
    destruct (productos_de_fecha rnd (S k) f items) as [[rs0 k0]|] eqn:P; cbn [bind];
      [|inversion 1].
    inversion 1; subst. cbn [map].
    change (lote_esperado ((moneda, tasa) :: items) f)
      with ((Some (VStr (String.append "CURR_" moneda)), Some (VStr f)) :: lote_esperado items f).
    f_equal. eapply IH; eauto.
Qed.

Lemma productos_loop_forma (rnd : nat -> Q) (k : nat) (data rates : Json)
  (items : list (string * Json)) (fs : list string) (rs : list Row) :
  py_getitem data "rates" = Ok rates -> py_items rates = Ok items ->
  productos_loop rnd k data fs = Ok rs ->
  map id_y_fecha rs = flat_map (lote_esperado items) fs.
Proof.
  intros G I. revert k rs.
  induction fs as [|f fs IH]; intros k rs; cbn [productos_loop].
  - inversion 1; reflexivity.
  - rewrite G; cbn [bind]. rewrite I; cbn [bind].
    destruct (productos_de_fecha rnd k f items) as [[rs0 k0]|] eqn:P; cbn [bind fst snd];
      [|inversion 1].
    destruct (productos_loop rnd k0 data fs) as [rest|] eqn:L; cbn [bind]; [|inversion 1].
    inversion 1; subst. rewrite map_app. cbn [flat_map].
    f_equal; [eapply productos_de_fecha_forma; eauto | eapply IH; eauto].
Qed.

Lemma productos_loop_primera (rnd : nat -> Q) (k : nat) (data : Json) (f : string)
  (fs : list string) (rs : list Row) :
  productos_loop rnd k data (f :: fs) = Ok rs ->
  exists rates items, py_getitem data "rates" = Ok rates /\ py_items rates = Ok items.
Proof.
  cbn [productos_loop].
  destruct (py_getitem data "rates") as [rates|] eqn:G; cbn [bind]; [|inversion 1].
  destruct (py_items rates) as [items|] eqn:I; cbn [bind]; [|inversion 1].
  intros _. exists rates, items. split; [reflexivity | exact I].
Qed.

(** C6: for [n > 0] and a valid wall-clock date, a table returned by the
    product extractor has one row per fetched entity per date, the dates
    being the [n] distinct strings [strftime('%Y-%m-%d')] of today and of
    the [n - 1] preceding calendar days; so its date column takes exactly
    these [n] distinct values. *)
Theorem extraer_productos_fechas (data : Json) (hoy : Date) (rnd : nat -> Q) (n : Z)
  (df : Table) :
  fecha_valida hoy -> (0 < n)%Z ->
  extraer_api_productos data hoy rnd n = Ok df ->
  exists fechas items,
    generar_fechas_historicas hoy n = Ok fechas /\
    List.length fechas = Z.to_nat n /\ NoDup fechas /\
    (forall i, (i < Z.to_nat n)%nat ->
       exists d, sub_days hoy i = Ok d /\ nth_error fechas i = Some (strftime_ymd d)) /\
    bind (py_getitem data "rates") py_items = Ok items /\
    map (fun r => (cell df r "producto_id", cell df r "fecha")) (rows df) =
      flat_map (lote_esperado items) fechas /\
    (forall v, In v (map (fun r => cell df r "fecha") (rows df)) <->
               exists f, In f fechas /\ v = Some (VStr f)).
Proof.
  intros Hv Hn. unfold extraer_api_productos.
  destruct (generar_fechas_historicas hoy n) as [fs|e] eqn:G; cbn [bind]; [|inversion 1].
  destruct (generar_fechas_spec _ _ _ Hv G) as [Hl [Hnd Hi]].
  destruct (py_in "rates" data) as [[]|e]; cbn [bind]; [| |inversion 1].
  2:{ cbn. inversion 1. }
  destruct (productos_loop rnd 0 data fs) as [ps|e] eqn:L; cbn [bind]; [|inversion 1].
  destruct ps as [|p ps]; [cbn; inversion 1|].
  cbn [data_frame validar_dataframe_basico rows bind]. intros H; inversion H; subst; clear H.
  destruct fs as [|f0 fs']; [simpl in Hl; lia|].
  destruct (productos_loop_primera _ _ _ _ _ _ L) as [rates [items [Gr Ir]]].
  pose proof (productos_loop_forma _ _ _ _ _ _ _ Gr Ir L) as Hf.
  set (fs := f0 :: fs') in *.
  assert (Hc : map (fun r => (cell {| cols := columnas_productos; rows := p :: ps |} r "producto_id",
                               cell {| cols := columnas_productos; rows := p :: ps |} r "fecha"))
                   (p :: ps) = map id_y_fecha (p :: ps))
    by (apply map_ext; intros r; reflexivity).
  exists fs, items.
  split; [reflexivity|]. split; [exact Hl|]. split; [exact Hnd|]. split; [exact Hi|].
  split; [rewrite Gr; cbn [bind]; exact Ir|].
  cbn [rows]. rewrite Hc, Hf. split; [reflexivity|].
  assert (Hitems : items <> []).
  { intros ->. assert (E : flat_map (lote_esperado []) fs = []).
    { clear. induction fs as [|f fs IH]; [reflexivity | exact IH]. }
    rewrite E in Hf. discriminate. }
  intros v.
  replace (map (fun r => cell {| cols := columnas_productos; rows := p :: ps |} r "fecha") (p :: ps))
    with (map snd (flat_map (lote_esperado items) fs)).
  2:{ rewrite <- Hf, <- Hc, map_map. reflexivity. }
  rewrite in_map_iff. split.
  - intros [[a b] [Hb Hin]]. cbn [snd] in Hb; subst b.
    apply in_flat_map in Hin as [f [Hf' Hin]].
    unfold lote_esperado in Hin. apply in_map_iff in Hin as [kv [E _]].
    inversion E; subst. eauto.
  - intros [f [Hf' ->]].
    destruct items as [|kv items']; [congruence|].
    exists (Some (VStr (String.append "CURR_" (fst kv))), Some (VStr f)).
    split; [reflexivity|].
    apply in_flat_map. exists f; split; [exact Hf'|]. left; reflexivity.
Qed.

(** ** Column lookup and well-formed tables *)

Lemma index_of_some (c : string) (l : list string) (i : nat) :
  index_of c l = Some i -> (i < List.length l)%nat /\ nth i l "" = c.
Proof.
  revert i; induction l as [|x l IH]; intros i; simpl; [discriminate|].
  destruct (String.eqb c x) eqn:E.
  - inversion 1; subst. apply String.eqb_eq in E. split; [lia | now subst].
  - destruct (index_of c l) as [j|]; simpl; [|discriminate].
    inversion 1; subst. destruct (IH j eq_refl). split; [lia | assumption].
Qed.

Lemma index_of_none (c : string) (l : list string) : index_of c l = None <-> ~ In c l.
Proof.
  induction l as [|x l IH]; simpl; [tauto|].
  destruct (String.eqb c x) eqn:E.
  - apply String.eqb_eq in E; subst. split; [discriminate | intros H; exfalso; auto].
  - apply String.eqb_neq in E. destruct (index_of c l) eqn:F; simpl.
    + split; [discriminate|]. intros H. exfalso. apply H. right.
      destruct (index_of_some c l n) as [L N]; [now rewrite F|].
      rewrite <- N. now apply nth_In.
    + split; [|reflexivity]. intros _ [H | H]; [congruence | now apply IH].
Qed.

(** ** Row counts of the consolidation steps *)

Lemma mapM_length {A B : Type} (f : A -> Result B) (l : list A) (l' : list B) :
  mapM f l = Ok l' -> List.length l' = List.length l.
Proof.
  revert l'; induction l as [|a l IH]; intros l'; simpl.
  - inversion 1; reflexivity.
  - destruct (f a); cbn [bind]; [|inversion 1].
    destruct (mapM f l) eqn:E; cbn [bind]; [|inversion 1].
    inversion 1; subst. simpl. f_equal. now apply IH.
Qed.

Lemma set_column_length (t : Table) (c : string) (d : Dtype) (vs : list Val) :
  List.length vs = List.length (rows t) ->
  List.length (rows (set_column t c d vs)) = List.length (rows t).
Proof.
  intros L. unfold set_column.
  destruct (index_of c (col_names t)); simpl;
    rewrite length_map, length_combine, L; apply Nat.min_id.
Qed.

Lemma set_const_length (t : Table) (c : string) (d : Dtype) (v : Val) :
  List.length (rows (set_const t c d v)) = List.length (rows t).
Proof. unfold set_const. apply set_column_length. apply repeat_length. Qed.

Lemma select_length (t t' : Table) (ns : list string) :
  select t ns = Ok t' -> List.length (rows t') = List.length (rows t).
Proof.
  unfold select. destruct (mapM _ ns); cbn [bind]; [|inversion 1].
  inversion 1; subst. simpl. apply length_map.
Qed.

Lemma column_length (t : Table) (c : string) (vs : list Val) :
  column t c = Ok vs -> List.length vs = List.length (rows t).
Proof.
  unfold column. destruct (index_of c (col_names t)); inversion 1; subst.
  apply length_map.
Qed.

Lemma calcular_length (t t' : Table) (m : string) :
  calcular_precio_local t m = Ok t' -> List.length (rows t') = List.length (rows t).
Proof.
  unfold calcular_precio_local.
  destruct (negb (has_col t "precio_usd")); [inversion 1; reflexivity|].
  destruct (negb (has_col t "tipo_cambio")); [inversion 1; reflexivity|].
  destruct (dtype_producto _ _) as [d|]; [|inversion 1].
  destruct (column t "precio_usd") as [ps|] eqn:P; cbn [bind]; [|inversion 1].
  destruct (column t "tipo_cambio") as [ts|] eqn:T; cbn [bind]; [|inversion 1].
  destruct (mapM _ (combine ps ts)) as [pl|] eqn:M; cbn [bind]; [|inversion 1].
  inversion 1; subst. rewrite set_const_length. apply set_column_length.
  rewrite (mapM_length _ _ _ M), length_combine, (column_length _ _ _ P),
    (column_length _ _ _ T). apply Nat.min_id.
Qed.

Lemma ordenar_length (t t' : Table) :
  ordenar_columnas t = Ok t' -> List.length (rows t') = List.length (rows t).
Proof. apply select_length. Qed.

(** The rows produced for one left row: its matches, or one row of nulls. *)
Definition filas_de_merge (r : Table) (il ir : nat) (lr : Row) : list Row :=
  match filter (fun rr => val_eqb (nth il lr VNull) (nth ir rr VNull)) (rows r) with
  | [] => [lr ++ repeat VNull (List.length (remove_nth ir (cols r)))]
  | ms => map (fun rr => lr ++ remove_nth ir rr) ms
  end.

Lemma replace_nth_length {A : Type} (n : nat) (x : A) (l : list A) :
  List.length (replace_nth n x l) = List.length l.
Proof. revert n; induction l as [|y l IH]; intros [|n]; simpl; try rewrite IH; reflexivity. Qed.

Lemma replace_nth_eq {A : Type} (n : nat) (x : A) (l : list A) :
  (n < List.length l)%nat -> nth_error (replace_nth n x l) n = Some x.
Proof.
  revert n; induction l as [|y l IH]; intros [|n] H; simpl in *; try lia; auto.
  apply IH; lia.
Qed.

Lemma replace_nth_neq {A : Type} (n j : nat) (x : A) (l : list A) :
  j <> n -> nth_error (replace_nth n x l) j = nth_error l j.
Proof.
  revert n j; induction l as [|y l IH]; intros [|n] [|j] H; simpl;
    try reflexivity; try congruence.
  apply IH. congruence.
Qed.

Lemma replace_nth_same {A : Type} (n : nat) (x : A) (l : list A) :
  nth_error l n = Some x -> replace_nth n x l = l.
Proof.
  revert n; induction l as [|y l IH]; intros [|n] H; simpl in *; try discriminate.
  - now inversion H.
  - now rewrite IH.
Qed.

Lemma map_replace_nth {A B : Type} (f : A -> B) (n : nat) (x : A) (l : list A) :
  map f (replace_nth n x l) = replace_nth n (f x) (map f l).
Proof. revert n; induction l as [|y l IH]; intros [|n]; simpl; try rewrite IH; reflexivity. Qed.

Lemma map_fst_suffix_replace (key suf : string) (o : list string)
  (l : list (string * Dtype)) (i : nat) (d : Dtype) :
  nth_error (map fst l) i = Some key ->
  map (fun c => fst (suffix_col key suf o c)) (replace_nth i (key, d) l)
  = map (fun c => fst (suffix_col key suf o c)) l.
Proof.
  revert i; induction l as [|[s d0] l IH]; intros [|i] H; simpl in *; try discriminate.
  - inversion H; subst. unfold suffix_col. simpl. destruct (negb _ && _); reflexivity.
  - f_equal. apply IH; assumption.
Qed.

(** What a successful merge is made of: both keys label one column, the
    labels are the (suffixed) left labels then the right non-key labels,
    and the rows are those of [filas_de_merge]. *)
Lemma merge_left_ok (l r m : Table) (key sl sr : string) :
  merge_left l r key sl sr = Ok m ->
  exists il ir, index_of key (col_names l) = Some il /\
    index_of key (col_names r) = Some ir /\
    ocurrencias key (col_names l) = 1%nat /\ ocurrencias key (col_names r) = 1%nat /\
    col_names m = map fst (map (suffix_col key sl (map fst (remove_nth ir (cols r)))) (cols l))
                  ++ map (fun c => fst (suffix_col key sr (col_names l) c)) (remove_nth ir (cols r)) /\
    List.length (cols m) = (List.length (cols l) + List.length (remove_nth ir (cols r)))%nat /\
    rows m = flat_map (filas_de_merge r il ir) (rows l).
Proof.
  unfold merge_left, columna_clave.
  destruct (index_of key (col_names r)) as [ir|] eqn:IR; [|inversion 1].
  destruct (Nat.eqb (ocurrencias key (col_names r)) 1) eqn:OR; [|inversion 1]. cbn [bind].
  destruct (index_of key (col_names l)) as [il|] eqn:IL; [|inversion 1].
  destruct (Nat.eqb (ocurrencias key (col_names l)) 1) eqn:OL; [|inversion 1]. cbn [bind].
  destruct (comprobar_claves _ _ _ _) as [conv|]; cbn [bind]; [|inversion 1].
  destruct (_ || _); [inversion 1|].
  intros E; inversion E; subst; clear E.
  apply Nat.eqb_eq in OL, OR.
  exists il, ir. repeat split; auto.
  - unfold col_names at 1. simpl. rewrite map_app. f_equal.
    + rewrite !map_map. destruct conv; [|reflexivity].
      apply map_fst_suffix_replace. destruct (index_of_some _ _ _ IL) as [Li Ni].
      rewrite <- Ni. now apply nth_error_nth'.
    + rewrite !map_map. apply map_ext. intros c.
      destruct (existsb _ (rows l)); reflexivity.
  - simpl. rewrite length_app, !length_map.
    destruct conv; [rewrite replace_nth_length|]; reflexivity.
Qed.

Lemma merge_left_rows (l r m : Table) (key sl sr : string) :
  merge_left l r key sl sr = Ok m ->
  exists il ir, index_of key (col_names l) = Some il /\
    index_of key (col_names r) = Some ir /\
    rows m = flat_map (filas_de_merge r il ir) (rows l).
Proof.
  intros H. destruct (merge_left_ok _ _ _ _ _ _ H) as (il & ir & IL & IR & _ & _ & _ & _ & E).
  eauto.
Qed.

Lemma filas_de_merge_length (r : Table) (il ir : nat) (lr : Row) :
  List.length (filas_de_merge r il ir lr)
  = Nat.max 1 (List.length (filter (fun rr => val_eqb (nth il lr VNull) (nth ir rr VNull)) (rows r))).
Proof.
  unfold filas_de_merge.
  destruct (filter (fun rr => val_eqb (nth il lr VNull) (nth ir rr VNull)) (rows r)) as [|x xs]; simpl; [reflexivity|].
  rewrite length_map. lia.
Qed.

Lemma flat_map_length_ge {A B : Type} (f : A -> list B) (l : list A) :
  (forall x, In x l -> 1 <= List.length (f x))%nat ->
  (List.length l <= List.length (flat_map f l))%nat.
Proof.
  induction l as [|x l IH]; simpl; intros H; [lia|].
  rewrite length_app.
  assert (List.length l <= List.length (flat_map f l))%nat
    by (apply IH; intros y Hy; apply H; now right).
  specialize (H x (or_introl eq_refl)). lia.
Qed.

Lemma flat_map_length_eq {A B : Type} (f : A -> list B) (l : list A) :
  (forall x, In x l -> List.length (f x) = 1%nat) ->
  List.length (flat_map f l) = List.length l.
Proof.
  induction l as [|x l IH]; simpl; intros H; [reflexivity|].
  rewrite length_app, H by now left.
  rewrite IH by (intros y Hy; apply H; now right). reflexivity.
Qed.

Lemma merge_left_length_ge (l r m : Table) (key sl sr : string) :
  merge_left l r key sl sr = Ok m ->
  (List.length (rows l) <= List.length (rows m))%nat.
Proof.
  intros H. destruct (merge_left_rows _ _ _ _ _ _ H) as (il & ir & _ & _ & E).
  rewrite E. apply flat_map_length_ge. intros x _.
  rewrite filas_de_merge_length. lia.
Qed.

Lemma merge_left_length_eq (l r m : Table) (key sl sr : string) :
  clave_unica r key ->
  merge_left l r key sl sr = Ok m ->
  List.length (rows m) = List.length (rows l).
Proof.
  intros U H. destruct (merge_left_rows _ _ _ _ _ _ H) as (il & ir & _ & IR & E).
  rewrite E. apply flat_map_length_eq. intros x _.
  rewrite filas_de_merge_length.
  specialize (U (nth il x VNull)). unfold nth_col in U. rewrite IR in U.
  apply Nat.max_l. exact U.
Qed.

Lemma filter_map_comm {A B : Type} (f : B -> bool) (g : A -> B) (l : list A) :
  filter f (map g l) = map g (filter (fun x => f (g x)) l).
Proof.
  induction l as [|x l IH]; simpl; [reflexivity|].
  destruct (f (g x)); simpl; now rewrite IH.
Qed.

Lemma nth_col_names (t : Table) (i : nat) :
  fst (nth i (cols t) ("", DOther)) = nth i (col_names t) "".
Proof. unfold col_names. symmetry. exact (map_nth fst (cols t) ("", DOther) i). Qed.

Lemma index_of_app (c : string) (l1 l2 : list string) :
  index_of c (l1 ++ l2) =
  match index_of c l1 with
  | Some i => Some i
  | None => option_map (Nat.add (List.length l1)) (index_of c l2)
  end.
Proof.
  induction l1 as [|x l1 IH]; simpl.
  - destruct (index_of c l2); reflexivity.
  - destruct (String.eqb c x); [reflexivity|]. rewrite IH.
    destruct (index_of c l1); simpl; [reflexivity|].
    destruct (index_of c l2); reflexivity.
Qed.

Lemma positions_in (c : string) (l : list string) (k : nat) :
  In k (positions c l) -> (k < List.length l)%nat /\ nth k l "" = c.
Proof.
  revert k; induction l as [|x l IH]; intros k; simpl; [intros []|].
  intros H. apply in_app_iff in H as [H|H].
  - destruct (String.eqb c x) eqn:E; [|destruct H].
    destruct H as [<- | []]. apply String.eqb_eq in E. split; [lia | now subst].
  - apply in_map_iff in H as [k' [<- H]]. destruct (IH k' H). split; [lia | assumption].
Qed.

Lemma positions_head (c : string) (l : list string) (i : nat) :
  index_of c l = Some i -> exists ps, positions c l = i :: ps.
Proof.
  revert i; induction l as [|x l IH]; intros i; simpl; [discriminate|].
  destruct (String.eqb c x).
  - inversion 1; subst. eexists. reflexivity.
  - destruct (index_of c l) as [i'|]; simpl; [|discriminate].
    inversion 1; subst. destruct (IH i' eq_refl) as [ps ->]. eexists. reflexivity.
Qed.

Lemma positions_none (c : string) (l : list string) :
  index_of c l = None -> positions c l = [].
Proof.
  induction l as [|x l IH]; simpl; [reflexivity|].
  destruct (String.eqb c x); [discriminate|].
  destruct (index_of c l); simpl; [discriminate|]. intros _. now rewrite IH.
Qed.

Lemma positions_unico (c : string) (l : list string) (i : nat) :
  sin_repetidos l = true -> index_of c l = Some i -> positions c l = [i].
Proof.
  revert i; induction l as [|x l IH]; intros i; simpl; [discriminate|].
  intros D. apply andb_prop in D as [D1 D2].
  destruct (String.eqb c x) eqn:E.
  - inversion 1; subst. apply String.eqb_eq in E; subst x.
    destruct (positions c l) as [|k ks] eqn:P; [reflexivity|].
    exfalso. destruct (positions_in c l k) as [Lk Nk]; [rewrite P; now left|].
    assert (Ic : In c l) by (rewrite <- Nk; now apply nth_In).
    assert (X : existsb (String.eqb c) l = true)
      by (apply existsb_exists; exists c; split; [exact Ic | apply String.eqb_refl]).
    rewrite X in D1. discriminate.
  - destruct (index_of c l) as [i'|]; simpl; [|discriminate].
    inversion 1; subst. now rewrite (IH i' D2 eq_refl).
Qed.

Lemma index_of_ausente (c : string) (l : list string) :
  (forall x, In x l -> x <> c) -> index_of c l = None.
Proof. intros H. apply index_of_none. intros I. exact (H c I eq_refl). Qed.

(** The column positions chosen by [select]. *)
Lemma select_idx (L ns : list string) (pss : list (list nat)) :
  mapM (fun c => match positions c L with [] => Err (EKey c) | ps => Ok ps end) ns = Ok pss ->
  (forall k, In k (List.concat pss) -> (k < List.length L)%nat /\ In (nth k L "") ns) /\
  (forall c, In c ns -> exists i j, index_of c L = Some i /\
     index_of c (map (fun k => nth k L "") (List.concat pss)) = Some j /\
     nth j (List.concat pss) 0%nat = i).
Proof.
  revert pss; induction ns as [|n ns IH]; intros pss; cbn [mapM].
  - inversion 1; subst. split; [intros k []| intros c []].
  - destruct (positions n L) as [|p ps0] eqn:Pn; cbn [bind]; [discriminate|].
    destruct (mapM _ ns) as [pss'|] eqn:M; cbn [bind]; [|discriminate].
    inversion 1; subst. destruct (IH pss' eq_refl) as [IH1 IH2]. clear IH.
    assert (Hp : forall k, In k (p :: ps0) -> (k < List.length L)%nat /\ nth k L "" = n)
      by (intros k Hk; apply positions_in; now rewrite Pn).
    change (List.concat ((p :: ps0) :: pss')) with ((p :: ps0) ++ List.concat pss'). split.
    + intros k Hk. apply in_app_iff in Hk as [Hk|Hk].
      * destruct (Hp k Hk) as [Lk Nk]. split; [exact Lk | rewrite Nk; now left].
      * destruct (IH1 k Hk) as [Lk Nk]. split; [exact Lk | now right].
    + intros c Hc. destruct (String.eqb c n) eqn:E.
      * apply String.eqb_eq in E; subst c.
        destruct (index_of n L) as [i|] eqn:I;
          [| rewrite (positions_none _ _ I) in Pn; discriminate].
        destruct (positions_head _ _ _ I) as [ps' P']. rewrite Pn in P'.
        inversion P'; subst p. exists i, 0%nat. split; [reflexivity|].
        simpl. rewrite (proj2 (Hp i (or_introl eq_refl))), String.eqb_refl.
        split; reflexivity.
      * destruct Hc as [Hc|Hc]; [subst; rewrite String.eqb_refl in E; discriminate|].
        destruct (IH2 c Hc) as (i & j & I & J & Nj).
        exists i, (List.length (p :: ps0) + j)%nat. split; [exact I|].
        rewrite map_app, index_of_app, index_of_ausente.
        -- rewrite J, length_map. split; [reflexivity|].
           rewrite app_nth2_plus. exact Nj.
        -- intros x Hx. apply in_map_iff in Hx as [k [<- Hk]].
           rewrite (proj2 (Hp k Hk)). intros ->. rewrite String.eqb_refl in E. discriminate.
Qed.

(** [select] with its chosen positions [sel]: each name reaches, as its
    first column, the first column of that name in [t]. *)
Lemma select_ok_inv (t t' : Table) (ns : list string) :
  select t ns = Ok t' ->
  exists sel,
    cols t' = map (fun i => nth i (cols t) ("", DOther)) sel /\
    rows t' = map (fun r => map (fun i => nth i r VNull) sel) (rows t) /\
    (forall k, In k sel -> (k < List.length (cols t))%nat) /\
    (forall c, In c (col_names t') -> In c ns /\ In c (col_names t)) /\
    (forall c, In c ns -> exists i j, index_of c (col_names t) = Some i /\
       index_of c (col_names t') = Some j /\ nth j sel 0%nat = i).
Proof.
  unfold select. destruct (mapM _ ns) as [pss|] eqn:M; cbn [bind]; [|inversion 1].
  intros E. inversion E; subst; clear E.
  destruct (select_idx _ _ _ M) as [H1 H2].
  assert (N : col_names (mkTable (map (fun i => nth i (cols t) ("", DOther)) (List.concat pss))
                 (map (fun r => map (fun i => nth i r VNull) (List.concat pss)) (rows t)))
              = map (fun k => nth k (col_names t) "") (List.concat pss)).
  { unfold col_names at 1. simpl. rewrite map_map. apply map_ext. intros k.
    apply nth_col_names. }
  exists (List.concat pss). repeat split.
  - intros k Hk. destruct (H1 k Hk) as [Lk _]. unfold col_names in Lk.
    now rewrite length_map in Lk.
  - rewrite N in H. apply in_map_iff in H as [k [<- Hk]]. exact (proj2 (H1 k Hk)).
  - rewrite N in H. apply in_map_iff in H as [k [<- Hk]].
    apply nth_In. exact (proj1 (H1 k Hk)).
  - intros c Hc. rewrite N. exact (H2 c Hc).
Qed.

Lemma select_fecha_tipo (t t' : Table) :
  sin_repetidos (col_names t) = true ->
  select t ["fecha"; "tipo_cambio"] = Ok t' ->
  exists iF iT, index_of "fecha" (col_names t) = Some iF /\
    index_of "tipo_cambio" (col_names t) = Some iT /\
    col_names t' = ["fecha"; "tipo_cambio"] /\
    rows t' = map (fun r => [nth iF r VNull; nth iT r VNull]) (rows t).
Proof.
  intros D. unfold select. simpl mapM.
  destruct (index_of "fecha" (col_names t)) as [iF|] eqn:F;
    [rewrite (positions_unico _ _ _ D F) | rewrite (positions_none _ _ F)]; cbn [bind];
    [|inversion 1].
  destruct (index_of "tipo_cambio" (col_names t)) as [iT|] eqn:T;
    [rewrite (positions_unico _ _ _ D T) | rewrite (positions_none _ _ T)]; cbn [bind];
    [|inversion 1].
  inversion 1; subst. exists iF, iT. repeat split.
  unfold col_names at 1. simpl. rewrite !nth_col_names.
  rewrite (proj2 (index_of_some _ _ _ F)), (proj2 (index_of_some _ _ _ T)).
  reflexivity.
Qed.

Lemma clave_unica_select (t t' : Table) :
  sin_repetidos (col_names t) = true ->
  clave_unica t "fecha" ->
  select t ["fecha"; "tipo_cambio"] = Ok t' ->
  clave_unica t' "fecha".
Proof.
  intros D U H v. destruct (select_fecha_tipo _ _ D H) as (iF & iT & F & _ & N & R).
  unfold nth_col. rewrite N, R. simpl index_of. rewrite filter_map_comm, length_map.
  specialize (U v). unfold nth_col in U. rewrite F in U.
  erewrite filter_ext; [exact U|]. intros r. reflexivity.
Qed.

Lemma consolidar_pasos (hoy ahora : string) (P T A : Table) (m : string) (out : Table) :
  consolidar_datos hoy ahora P T A m = Ok out ->
  exists L R M1 M2 C,
    filtrar_tipo_cambio hoy (limpiar_dataframe T) m = Ok L /\
    log_primer_tipo_cambio L = Ok tt /\
    select L ["fecha"; "tipo_cambio"] = Ok R /\
    merge_left (if has_col (limpiar_dataframe P) "fecha" then limpiar_dataframe P
                else set_const (limpiar_dataframe P) "fecha" DObject (VStr hoy))
               R "fecha" "_x" "_y" = Ok M1 /\
    merge_left M1 (limpiar_dataframe A) "producto_id" "" "_adicional" = Ok M2 /\
    calcular_precio_local M2 m = Ok C /\
    ordenar_columnas
      (set_const (set_const C "fecha_procesamiento" DObject (VStr ahora))
                 "pipeline_version" DObject (VStr "1.0")) = Ok out.
Proof.
  unfold consolidar_datos.
  destruct (filtrar_tipo_cambio hoy (limpiar_dataframe T) m) as [L|] eqn:E1;
    cbn [bind]; [|inversion 1].
  destruct (log_primer_tipo_cambio L) as [[]|] eqn:E2; cbn [bind]; [|inversion 1].
  destruct (select L ["fecha"; "tipo_cambio"]) as [R|] eqn:E3; cbn [bind]; [|inversion 1].
  destruct (merge_left _ R "fecha" "_x" "_y") as [M1|] eqn:E4; cbn [bind]; [|inversion 1].
  destruct (merge_left M1 _ "producto_id" "" "_adicional") as [M2|] eqn:E5;
    cbn [bind]; [|inversion 1].
  destruct (calcular_precio_local M2 m) as [C|] eqn:E6; cbn [bind]; [|inversion 1].
  intros H. exists L, R, M1, M2, C. repeat split; assumption.
Qed.

(** ** Cells of the consolidation steps *)

Lemma bien_formada_iff (t : Table) :
  bien_formada t <-> forall r, In r (rows t) -> List.length r = List.length (cols t).
Proof.
  unfold bien_formada. rewrite forallb_forall.
  split; intros H r R; specialize (H r R); now apply Nat.eqb_eq.
Qed.

Lemma append_vacio (s : string) : String.append s "" = s.
Proof. induction s as [|a s IH]; simpl; [reflexivity | now rewrite IH]. Qed.

Lemma index_of_nth_error (c : string) (l : list string) (i : nat) :
  index_of c l = Some i -> nth_error l i = Some c.
Proof.
  intros H. destruct (index_of_some _ _ _ H) as [L N].
  rewrite <- N. now apply nth_error_nth'.
Qed.

Lemma has_col_false (t : Table) (c : string) :
  has_col t c = false -> index_of c (col_names t) = None.
Proof.
  unfold has_col. intros H. apply index_of_none. intros I.
  assert (existsb (String.eqb c) (col_names t) = true)
    by (apply existsb_exists; exists c; split; [exact I | apply String.eqb_refl]).
  congruence.
Qed.

Lemma index_col_length (t : Table) (c : string) (i : nat) :
  index_of c (col_names t) = Some i -> (i < List.length (cols t))%nat.
Proof.
  intros I. destruct (index_of_some _ _ _ I) as [L _].
  unfold col_names in L. now rewrite length_map in L.
Qed.

Lemma cell_bien_formada (t : Table) (r : Row) (c : string) (i : nat) :
  bien_formada t -> In r (rows t) -> index_of c (col_names t) = Some i ->
  cell t r c = Some (nth i r VNull).
Proof.
  intros W R I. unfold cell. rewrite I. apply nth_error_nth'.
  rewrite (proj1 (bien_formada_iff t) W r R). exact (index_col_length _ _ _ I).
Qed.

Lemma cell_some_in (t : Table) (r : Row) (c : string) (v : Val) :
  cell t r c = Some v -> In c (col_names t).
Proof.
  unfold cell. destruct (index_of c (col_names t)) as [i|] eqn:I; [|discriminate].
  intros _. apply nth_error_In with i. exact (index_of_nth_error _ _ _ I).
Qed.

Lemma set_column_bien_formada (t : Table) (c : string) (d : Dtype) (vs : list Val) :
  bien_formada t -> bien_formada (set_column t c d vs).
Proof.
  intros W. pose proof (proj1 (bien_formada_iff t) W) as W'.
  apply bien_formada_iff. unfold set_column.
  destruct (index_of c (col_names t)) as [i|]; simpl;
    intros r' H; apply in_map_iff in H as [[r v] [<- H]];
    apply in_combine_l in H; simpl.
  - rewrite !replace_nth_length. now apply W'.
  - rewrite !length_app, (W' r H). reflexivity.
Qed.

Lemma set_const_bien_formada (t : Table) (c : string) (d : Dtype) (v : Val) :
  bien_formada t -> bien_formada (set_const t c d v).
Proof. apply set_column_bien_formada. Qed.

(** A row of [t] after [df[c] = vs]: the row it comes from, with [c] set. *)
Lemma set_column_fila (t : Table) (c : string) (d : Dtype) (vs : list Val) (r' : Row) :
  bien_formada t -> In r' (rows (set_column t c d vs)) ->
  exists r v, In (r, v) (combine (rows t) vs) /\
    cell (set_column t c d vs) r' c = Some v /\
    forall c', c' <> c -> cell (set_column t c d vs) r' c' = cell t r c'.
Proof.
  intros W. pose proof (proj1 (bien_formada_iff t) W) as W'.
  unfold set_column, cell, col_names.
  destruct (index_of c (map fst (cols t))) as [i|] eqn:I; simpl.
  - intros H. apply in_map_iff in H as [[r v] [<- H]]. exists r, v.
    split; [exact H|]. simpl.
    pose proof (W' r (in_combine_l _ _ _ _ H)) as Lr.
    rewrite map_replace_nth. simpl.
    rewrite (replace_nth_same _ _ _ (index_of_nth_error _ _ _ I)), I.
    split.
    + apply replace_nth_eq. rewrite Lr. exact (index_col_length t c i I).
    + intros c' N. destruct (index_of c' (map fst (cols t))) as [j|] eqn:J; [|reflexivity].
      apply replace_nth_neq. intros ->.
      apply index_of_nth_error in I, J. congruence.
  - intros H. apply in_map_iff in H as [[r v] [<- H]]. exists r, v.
    split; [exact H|]. simpl.
    pose proof (W' r (in_combine_l _ _ _ _ H)) as Lr.
    rewrite map_app, index_of_app, I. simpl. rewrite String.eqb_refl. simpl.
    split.
    + rewrite nth_error_app2; rewrite length_map, <- Lr; [|lia].
      now rewrite Nat.add_0_r, Nat.sub_diag.
    + intros c' N. rewrite index_of_app.
      destruct (index_of c' (map fst (cols t))) as [j|] eqn:J.
      * apply nth_error_app1. rewrite Lr.
        exact (index_col_length t c' j J).
      * simpl. apply String.eqb_neq in N. now rewrite N.
Qed.

Lemma set_const_fila (t : Table) (c : string) (d : Dtype) (v : Val) (r' : Row) :
  bien_formada t -> In r' (rows (set_const t c d v)) ->
  exists r, In r (rows t) /\ cell (set_const t c d v) r' c = Some v /\
    forall c', c' <> c -> cell (set_const t c d v) r' c' = cell t r c'.
Proof.
  intros W H. destruct (set_column_fila _ _ _ _ _ W H) as (r & v' & R & C & O).
  exists r. split; [exact (in_combine_l _ _ _ _ R)|].
  apply in_combine_r, repeat_spec in R. subst v'. split; assumption.
Qed.

Lemma select_bien_formada (t t' : Table) (ns : list string) :
  select t ns = Ok t' -> bien_formada t'.
Proof.
  unfold select. destruct (mapM _ ns) as [idx|]; cbn [bind]; [|inversion 1].
  intros E. inversion E; subst. apply bien_formada_iff. simpl. intros r' H.
  apply in_map_iff in H as [r [<- _]]. now rewrite !length_map.
Qed.

(** A row of [df[ns]]: the row it comes from, same cells under [ns]. *)
Lemma select_fila (t t' : Table) (ns : list string) (r' : Row) :
  bien_formada t -> select t ns = Ok t' -> In r' (rows t') ->
  exists r, In r (rows t) /\ forall c, In c ns -> cell t' r' c = cell t r c.
Proof.
  intros W H R'. destruct (select_ok_inv _ _ _ H) as (sel & Cs & Rs & _ & _ & F).
  rewrite Rs in R'. apply in_map_iff in R' as [r [<- R]].
  exists r. split; [exact R|]. intros c Hc.
  destruct (F c Hc) as (i & j & I & J & Nj).
  rewrite (cell_bien_formada _ _ _ _ W R I).
  pose proof (index_col_length _ _ _ J) as Lj. rewrite Cs, length_map in Lj.
  unfold cell. rewrite J, nth_error_map, (nth_error_nth' sel 0%nat Lj), Nj.
  reflexivity.
Qed.

(** [select] keeps the dtype of each selected name. *)
Lemma select_dtype (t t' : Table) (ns : list string) (c : string) :
  select t ns = Ok t' -> In c ns -> dtype_of t' c = dtype_of t c.
Proof.
  intros H Hc. destruct (select_ok_inv _ _ _ H) as (sel & Cs & _ & _ & _ & F).
  destruct (F c Hc) as (i & j & I & J & Nj).
  pose proof (index_col_length _ _ _ J) as Lj. rewrite Cs, length_map in Lj.
  unfold dtype_of. rewrite I, J, Cs.
  rewrite (nth_indep _ ("", DOther) (nth 0%nat (cols t) ("", DOther)))
    by (rewrite length_map; exact Lj).
  rewrite (map_nth (fun i => nth i (cols t) ("", DOther))), Nj. reflexivity.
Qed.

Lemma ordenar_bien_formada (t t' : Table) :
  ordenar_columnas t = Ok t' -> bien_formada t'.
Proof. apply select_bien_formada. Qed.

(** Reordering the columns keeps every cell of every row. *)
Lemma ordenar_disponible (t : Table) (c : string) :
  existsb (String.eqb c) (col_names t) = true ->
  In c (filter (fun c => existsb (String.eqb c) (col_names t))
          (columnas_principales ++
           filter (fun c => negb (existsb (String.eqb c) columnas_principales))
             (col_names t))).
Proof.
  intros E. apply filter_In. split; [|exact E]. apply in_or_app.
  destruct (existsb (String.eqb c) columnas_principales) eqn:P.
  - left. apply existsb_exists in P as [x [Hx Ex]].
    apply String.eqb_eq in Ex. now subst.
  - right. apply filter_In. split; [|now rewrite P].
    apply existsb_exists in E as [x [Hx Ex]]. apply String.eqb_eq in Ex. now subst.
Qed.

Lemma ordenar_ausente (t t' : Table) (c : string) :
  ordenar_columnas t = Ok t' -> existsb (String.eqb c) (col_names t) = false ->
  index_of c (col_names t') = None.
Proof.
  intros H E. unfold ordenar_columnas in H. cbv zeta in H.
  destruct (select_ok_inv _ _ _ H) as (sel & _ & _ & _ & Nm & _).
  apply index_of_none. intros Ic. destruct (Nm c Ic) as [_ It].
  assert (X : existsb (String.eqb c) (col_names t) = true)
    by (apply existsb_exists; exists c; split; [exact It | apply String.eqb_refl]).
  congruence.
Qed.

Lemma ordenar_fila (t t' : Table) (r' : Row) :
  bien_formada t -> ordenar_columnas t = Ok t' -> In r' (rows t') ->
  exists r, In r (rows t) /\ forall c, cell t' r' c = cell t r c.
Proof.
  intros W H R'. pose proof H as H0. unfold ordenar_columnas in H. cbv zeta in H.
  destruct (select_fila _ _ _ _ W H R') as [r [R C]].
  exists r. split; [exact R|]. intros c.
  destruct (existsb (String.eqb c) (col_names t)) eqn:E.
  - apply C. now apply ordenar_disponible.
  - assert (I : index_of c (col_names t) = None) by (apply (has_col_false t c); exact E).
    unfold cell. rewrite I, (ordenar_ausente _ _ _ H0 E). reflexivity.
Qed.

(** Reordering the columns keeps the dtype of every name. *)
Lemma ordenar_dtype (t t' : Table) (c : string) :
  ordenar_columnas t = Ok t' -> dtype_of t' c = dtype_of t c.
Proof.
  intros H. pose proof H as H0. unfold ordenar_columnas in H. cbv zeta in H.
  destruct (existsb (String.eqb c) (col_names t)) eqn:E.
  - apply (select_dtype _ _ _ _ H). now apply ordenar_disponible.
  - unfold dtype_of. rewrite (ordenar_ausente _ _ _ H0 E).
    rewrite (has_col_false t c E). reflexivity.
Qed.

Lemma remove_nth_length {A : Type} (n : nat) (l : list A) :
  List.length (remove_nth n l) = (Nat.min n (List.length l) + (List.length l - S n))%nat.
Proof. unfold remove_nth. now rewrite length_app, length_firstn, length_skipn. Qed.

Lemma filas_de_merge_forma (r : Table) (il ir : nat) (lr r' : Row) :
  In r' (filas_de_merge r il ir lr) ->
  r' = lr ++ repeat VNull (List.length (remove_nth ir (cols r))) \/
  exists rr, In rr (rows r) /\ r' = lr ++ remove_nth ir rr.
Proof.
  unfold filas_de_merge.
  destruct (filter (fun rr => val_eqb (nth il lr VNull) (nth ir rr VNull)) (rows r))
    as [|y ys] eqn:F.
  - intros [<- | []]. now left.
  - rewrite <- F. intros H. apply in_map_iff in H as [rr [<- H]].
    apply filter_In in H as [H _]. right. now exists rr.
Qed.

Lemma merge_left_bien_formada (l r m : Table) (key sl sr : string) :
  bien_formada l -> bien_formada r -> merge_left l r key sl sr = Ok m -> bien_formada m.
Proof.
  intros Wl Wr H.
  pose proof (proj1 (bien_formada_iff l) Wl) as Wl'.
  pose proof (proj1 (bien_formada_iff r) Wr) as Wr'.
  destruct (merge_left_rows _ _ _ _ _ _ H) as (il & ir & IL & IR & E).
  assert (C : List.length (cols m) =
              (List.length (cols l) + List.length (remove_nth ir (cols r)))%nat).
  { destruct (merge_left_ok _ _ _ _ _ _ H) as (il' & ir' & IL' & IR' & _ & _ & _ & C & _).
    rewrite IR in IR'. inversion IR'; subst. exact C. }
  apply bien_formada_iff. rewrite E, C. intros r' R'.
  apply in_flat_map in R' as [lr [LR R']].
  destruct (filas_de_merge_forma _ _ _ _ _ R') as [-> | [rr [RR ->]]];
    rewrite length_app, (Wl' lr LR); f_equal.
  - apply repeat_length.
  - rewrite !remove_nth_length, (Wr' rr RR). reflexivity.
Qed.

Lemma suffix_vacio_nombres (key : string) (o : list string) (cs : list (string * Dtype)) :
  map fst (map (suffix_col key "" o) cs) = map fst cs.
Proof.
  rewrite map_map. apply map_ext. intros c. unfold suffix_col.
  destruct (negb _ && _); simpl; [apply append_vacio | reflexivity].
Qed.

(** The second join ([suffixes=('', '_adicional')]) keeps every cell of the
    left row under the left column names. *)
Lemma merge_left_sin_sufijo (l r m : Table) (key sr : string) (r' : Row) :
  bien_formada l -> merge_left l r key "" sr = Ok m -> In r' (rows m) ->
  exists lr, In lr (rows l) /\ forall c, In c (col_names l) -> cell m r' c = cell l lr c.
Proof.
  intros W H R'. pose proof (proj1 (bien_formada_iff l) W) as W'.
  assert (N : exists rest, col_names m = col_names l ++ rest).
  { destruct (merge_left_ok _ _ _ _ _ _ H) as (il & ir & _ & _ & _ & _ & N & _).
    rewrite N, suffix_vacio_nombres. eexists. reflexivity. }
  destruct N as [rest N].
  destruct (merge_left_rows _ _ _ _ _ _ H) as (il & ir & _ & _ & E).
  rewrite E in R'. apply in_flat_map in R' as [lr [LR R']].
  exists lr. split; [exact LR|].
  assert (X : exists x, r' = lr ++ x)
    by (destruct (filas_de_merge_forma _ _ _ _ _ R') as [-> | [rr [_ ->]]]; eauto).
  destruct X as [x ->]. intros c Hc. unfold cell. rewrite N, index_of_app.
  destruct (index_of c (col_names l)) as [i|] eqn:I;
    [| apply index_of_none in I; contradiction].
  apply nth_error_app1. rewrite (W' lr LR). exact (index_col_length _ _ _ I).
Qed.

Lemma fill_row_length (ds : list Dtype) (r : Row) :
  List.length (fill_row ds r) = List.length r.
Proof.
  revert r; induction ds as [|d ds IH]; intros [|v r]; simpl; try reflexivity.
  now rewrite IH.
Qed.

Lemma limpiar_rows_origen (t : Table) (r : Row) :
  In r (rows (limpiar_dataframe t)) ->
  exists r0, In r0 (rows t) /\ r = fill_row (map snd (cols t)) r0.
Proof.
  unfold limpiar_dataframe, fillna, dropna_all, drop_duplicates; simpl.
  intros H; apply in_map_iff in H as [r0 [<- H]].
  apply filter_In in H as [H _]. apply drop_dup_aux_incl in H.
  now exists r0.
Qed.

Lemma limpiar_bien_formada (t : Table) :
  bien_formada t -> bien_formada (limpiar_dataframe t).
Proof.
  intros W. pose proof (proj1 (bien_formada_iff t) W) as W'.
  apply bien_formada_iff. intros r R.
  destruct (limpiar_rows_origen _ _ R) as [r0 [R0 ->]].
  rewrite fill_row_length. exact (W' r0 R0).
Qed.

Lemma calcular_bien_formada (t t' : Table) (m : string) :
  bien_formada t -> calcular_precio_local t m = Ok t' -> bien_formada t'.
Proof.
  intros W. unfold calcular_precio_local. cbv zeta.
  destruct (negb (has_col t "precio_usd")); [intros E; inversion E; now subst|].
  destruct (negb (has_col t "tipo_cambio")); [intros E; inversion E; now subst|].
  destruct (dtype_producto _ _) as [d|]; [|inversion 1].
  destruct (column t "precio_usd") as [ps|]; cbn [bind]; [|inversion 1].
  destruct (column t "tipo_cambio") as [ts|]; cbn [bind]; [|inversion 1].
  destruct (mapM _ (combine ps ts)) as [pl|]; cbn [bind]; [|inversion 1].
  intros E; inversion E; subst.
  apply set_const_bien_formada, set_column_bien_formada, W.
Qed.

Lemma mapM_combine_in {B : Type} (f : Val * Val -> Result B) (g h : Row -> Val)
  (rs : list Row) (pl : list B) (r : Row) (v : B) :
  mapM f (combine (map g rs) (map h rs)) = Ok pl ->
  In (r, v) (combine rs pl) -> f (g r, h r) = Ok v.
Proof.
  revert pl; induction rs as [|r0 rs IH]; intros pl; cbn [map combine mapM].
  - intros E; inversion E; subst. simpl. intros [].
  - destruct (f (g r0, h r0)) as [b|] eqn:F; cbn [bind]; [|inversion 1].
    destruct (mapM f (combine (map g rs) (map h rs))) as [bs|] eqn:M;
      cbn [bind]; [|inversion 1].
    intros E; inversion E; subst. simpl. intros [P | P].
    + inversion P; subst. exact F.
    + exact (IH bs eq_refl P).
Qed.

Lemma column_ok (t : Table) (c : string) (vs : list Val) :
  column t c = Ok vs ->
  exists i, index_of c (col_names t) = Some i /\ vs = map (fun r => nth i r VNull) (rows t).
Proof.
  unfold column. destruct (index_of c (col_names t)) as [i|]; inversion 1.
  now exists i.
Qed.

Lemma cell_sin_columna (t : Table) (r : Row) (c : string) :
  has_col t c = false -> cell t r c = None.
Proof. intros H. unfold cell. now rewrite (has_col_false _ _ H). Qed.

(** A row after [calcular_precio_local]: the row it comes from, with
    [precio_local] and [moneda_local] set when both inputs are numbers. *)
Lemma nth_replace_nth {A : Type} (i j : nat) (x d : A) (l : list A) :
  (i < List.length l)%nat -> nth j (replace_nth i x l) d = if Nat.eqb j i then x else nth j l d.
Proof.
  revert i j; induction l as [|y l IH]; intros [|i] [|j] H; simpl in *; try lia;
    try reflexivity.
  apply IH. lia.
Qed.

(** [df[c] = values] gives column [c] the dtype [d] and keeps the others'. *)
Lemma set_column_dtype (t : Table) (c c' : string) (d : Dtype) (vs : list Val) :
  dtype_of (set_column t c d vs) c' = if String.eqb c' c then d else dtype_of t c'.
Proof.
  unfold set_column. destruct (index_of c (col_names t)) as [i|] eqn:I.
  - assert (N : col_names (mkTable (replace_nth i (c, d) (cols t))
                   (map (fun rv => replace_nth i (snd rv) (fst rv)) (combine (rows t) vs)))
                = col_names t).
    { unfold col_names at 1. simpl. rewrite map_replace_nth. simpl.
      exact (replace_nth_same _ _ _ (index_of_nth_error _ _ _ I)). }
    unfold dtype_of. rewrite N. simpl.
    destruct (index_of c' (col_names t)) as [j|] eqn:J.
    + rewrite nth_replace_nth by exact (index_col_length _ _ _ I).
      destruct (Nat.eqb j i) eqn:E.
      * apply Nat.eqb_eq in E; subst j.
        assert (c' = c).
        { apply index_of_nth_error in I, J. congruence. }
        subst c'. rewrite String.eqb_refl. reflexivity.
      * destruct (String.eqb c' c) eqn:C; [|reflexivity].
        apply String.eqb_eq in C; subst c'. rewrite I in J. inversion J; subst.
        rewrite Nat.eqb_refl in E. discriminate.
    + destruct (String.eqb c' c) eqn:C; [|reflexivity].
      apply String.eqb_eq in C; subst c'. congruence.
  - unfold dtype_of. unfold col_names at 1. simpl. rewrite map_app, index_of_app.
    fold (col_names t). destruct (index_of c' (col_names t)) as [j|] eqn:J.
    + destruct (String.eqb c' c) eqn:C.
      * apply String.eqb_eq in C; subst c'. congruence.
      * rewrite app_nth1 by exact (index_col_length _ _ _ J). reflexivity.
    + simpl. destruct (String.eqb c' c) eqn:C; [|reflexivity]. simpl.
      rewrite Nat.add_0_r, app_nth2; unfold col_names; rewrite length_map; [|lia].
      now rewrite Nat.sub_diag.
Qed.

Lemma set_const_dtype (t : Table) (c c' : string) (d : Dtype) (v : Val) :
  dtype_of (set_const t c d v) c' = if String.eqb c' c then d else dtype_of t c'.
Proof. apply set_column_dtype. Qed.

(** The price derivation, row by row: the other cells are kept, and a row
    with both prices present gets the product of the dtype NumPy computes. *)
Lemma calcular_fila (t t' : Table) (m : string) (r' : Row) :
  bien_formada t -> calcular_precio_local t m = Ok t' -> In r' (rows t') ->
  exists r, In r (rows t) /\
    (forall c, c <> "precio_local" -> c <> "moneda_local" -> cell t' r' c = cell t r c) /\
    (forall p q, cell t r "precio_usd" = Some (VNum p) ->
       cell t r "tipo_cambio" = Some (VNum q) ->
       dtype_producto (dtype_of t "precio_usd") (dtype_of t "tipo_cambio")
         = Some (dtype_of t' "precio_local") /\
       cell t' r' "precio_local" = Some (VNum (valor_producto (dtype_of t' "precio_local") (p * q))) /\
       cell t' r' "moneda_local" = Some (VStr m)).
Proof.
  intros W. unfold calcular_precio_local. cbv zeta.
  destruct (has_col t "precio_usd") eqn:HP; simpl negb; cbv iota.
  2:{ intros E R'. inversion E; subst. exists r'. split; [exact R'|].
      split; [reflexivity|]. intros p q Hp. now rewrite cell_sin_columna in Hp. }
  destruct (has_col t "tipo_cambio") eqn:HT; simpl negb; cbv iota.
  2:{ intros E R'. inversion E; subst. exists r'. split; [exact R'|].
      split; [reflexivity|]. intros p q _ Hq. now rewrite cell_sin_columna in Hq. }
  destruct (dtype_producto _ _) as [d|] eqn:D; [|inversion 1].
  destruct (column t "precio_usd") as [ps|] eqn:CP; cbn [bind]; [|inversion 1].
  destruct (column t "tipo_cambio") as [ts|] eqn:CT; cbn [bind]; [|inversion 1].
  destruct (mapM _ (combine ps ts)) as [pl|] eqn:M; cbn [bind]; [|inversion 1].
  intros E R'. inversion E; subst t'.
  destruct (set_const_fila _ _ _ _ _ (set_column_bien_formada _ _ _ _ W) R')
    as (r1 & R1 & CM & O1).
  destruct (set_column_fila _ _ _ _ _ W R1) as (r & v & RV & CPL & O2).
  assert (DT : dtype_of (set_const (set_column t "precio_local" d pl) "moneda_local" DObject
                           (VStr m)) "precio_local" = d)
    by (rewrite set_const_dtype, set_column_dtype; reflexivity).
  exists r. split; [exact (in_combine_l _ _ _ _ RV)|]. split.
  - intros c N1 N2. rewrite (O1 c N2). exact (O2 c N1).
  - intros p q Hp Hq. rewrite DT. split; [first [exact D | reflexivity]|]. split; [|exact CM].
    rewrite (O1 "precio_local") by discriminate. rewrite CPL.
    destruct (column_ok _ _ _ CP) as [ip [IP ->]].
    destruct (column_ok _ _ _ CT) as [it [IT ->]].
    pose proof (mapM_combine_in _ _ _ _ _ _ _ M RV) as F. cbv beta in F.
    cbn [fst snd] in F.
    pose proof (in_combine_l _ _ _ _ RV) as R.
    rewrite (cell_bien_formada _ _ _ _ W R IP) in Hp.
    rewrite (cell_bien_formada _ _ _ _ W R IT) in Hq.
    inversion Hp as [Np]. inversion Hq as [Nq]. rewrite Np, Nq in F.
    simpl in F. inversion F. reflexivity.
Qed.

(** The price derivation keeps the dtypes of the other columns. *)
Lemma calcular_dtype (t t' : Table) (m c : string) :
  calcular_precio_local t m = Ok t' -> c <> "precio_local" -> c <> "moneda_local" ->
  dtype_of t' c = dtype_of t c.
Proof.
  unfold calcular_precio_local. cbv zeta.
  destruct (negb (has_col t "precio_usd")); [intros E; now inversion E|].
  destruct (negb (has_col t "tipo_cambio")); [intros E; now inversion E|].
  destruct (dtype_producto _ _) as [d|]; [|inversion 1].
  destruct (column t "precio_usd") as [ps|]; cbn [bind]; [|inversion 1].
  destruct (column t "tipo_cambio") as [ts|]; cbn [bind]; [|inversion 1].
  destruct (mapM _ (combine ps ts)) as [pl|]; cbn [bind]; [|inversion 1].
  intros E N1 N2; inversion E; subst.
  rewrite set_const_dtype, set_column_dtype.
  apply String.eqb_neq in N1, N2. now rewrite N1, N2.
Qed.

(** A row of the consolidated table traced back to a row of the second
    join, through the price step, the metadata columns and the reordering. *)
Lemma consolidar_fila (hoy ahora : string) (P T A : Table) (m : string) (out : Table)
  (r' : Row) :
  bien_formada P -> bien_formada A ->
  consolidar_datos hoy ahora P T A m = Ok out -> In r' (rows out) ->
  exists L R M1 M2 r2,
    filtrar_tipo_cambio hoy (limpiar_dataframe T) m = Ok L /\
    select L ["fecha"; "tipo_cambio"] = Ok R /\
    merge_left (productos_con_fecha hoy (limpiar_dataframe P)) R "fecha" "_x" "_y" = Ok M1 /\
    merge_left M1 (limpiar_dataframe A) "producto_id" "" "_adicional" = Ok M2 /\
    bien_formada M1 /\ In r2 (rows M2) /\
    (forall c, c <> "precio_local" -> c <> "moneda_local" ->
       c <> "fecha_procesamiento" -> c <> "pipeline_version" ->
       cell out r' c = cell M2 r2 c) /\
    (forall p q, cell M2 r2 "precio_usd" = Some (VNum p) ->
       cell M2 r2 "tipo_cambio" = Some (VNum q) ->
       dtype_producto (dtype_of out "precio_usd") (dtype_of out "tipo_cambio")
         = Some (dtype_of out "precio_local") /\
       cell out r' "precio_local"
         = Some (VNum (valor_producto (dtype_of out "precio_local") (p * q))) /\
       cell out r' "moneda_local" = Some (VStr m)).
Proof.
  intros WP WA H R'.
  destruct (consolidar_pasos _ _ _ _ _ _ _ H)
    as (L & R & M1 & M2 & C & E1 & _ & E3 & E4 & E5 & E6 & E7).
  assert (W0 : bien_formada (productos_con_fecha hoy (limpiar_dataframe P))).
  { unfold productos_con_fecha. destruct (has_col _ _);
      [|apply set_const_bien_formada]; now apply limpiar_bien_formada. }
  assert (W1 : bien_formada M1)
    by exact (merge_left_bien_formada _ _ _ _ _ _ W0 (select_bien_formada _ _ _ E3) E4).
  assert (W2 : bien_formada M2)
    by exact (merge_left_bien_formada _ _ _ _ _ _ W1 (limpiar_bien_formada _ WA) E5).
  assert (W3 : bien_formada C) by exact (calcular_bien_formada _ _ _ W2 E6).
  assert (W4 := set_const_bien_formada C "fecha_procesamiento" DObject (VStr ahora) W3).
  assert (W5 := set_const_bien_formada _ "pipeline_version" DObject (VStr "1.0") W4).
  destruct (ordenar_fila _ _ _ W5 E7 R') as (r5 & R5 & O5).
  destruct (set_const_fila _ _ _ _ _ W4 R5) as (r4 & R4 & _ & O4).
  destruct (set_const_fila _ _ _ _ _ W3 R4) as (r3 & R3 & _ & O3).
  destruct (calcular_fila _ _ _ _ W2 E6 R3) as (r2 & R2 & O2 & PL).
  exists L, R, M1, M2, r2. do 6 (split; [assumption|]). split.
  - intros c N1 N2 N3 N4. rewrite O5, O4, O3 by assumption. now apply O2.
  - assert (DO : forall c, c <> "fecha_procesamiento" -> c <> "pipeline_version" ->
                    dtype_of out c = dtype_of C c).
    { intros c N1 N2. rewrite (ordenar_dtype _ _ c E7), !set_const_dtype.
      apply String.eqb_neq in N1, N2. now rewrite N1, N2. }
    intros p q Hp Hq. destruct (PL p q Hp Hq) as [X [Y Z]].
    rewrite !O5, !O4, !O3 by discriminate.
    rewrite !DO by discriminate.
    rewrite !(calcular_dtype _ _ _ _ E6) by discriminate.
    split; [exact X|]. split; assumption.
Qed.


Lemma merge_left_col_names (l r m : Table) (key sl sr : string) :
  merge_left l r key sl sr = Ok m ->
  exists ir, index_of key (col_names r) = Some ir /\
    col_names m = map fst (map (suffix_col key sl (map fst (remove_nth ir (cols r)))) (cols l))
                  ++ map (fun c => fst (suffix_col key sr (col_names l) c)) (remove_nth ir (cols r)).
Proof.
  intros H. destruct (merge_left_ok _ _ _ _ _ _ H) as (il & ir & _ & IR & _ & _ & N & _).
  eauto.
Qed.

Lemma val_eqb_str (v : Val) (s : string) : val_eqb v (VStr s) = true -> v = VStr s.
Proof. destruct v; simpl; try discriminate. intros E. apply String.eqb_eq in E. now subst. Qed.

Lemma filter_vacio {A : Type} (f : A -> bool) (l : list A) :
  (forall x, In x l -> f x = false) -> filter f l = [].
Proof.
  induction l as [|x l IH]; simpl; intros H; [reflexivity|].
  rewrite H by now left. apply IH. intros y Hy. apply H. now right.
Qed.

Lemma fill_row_nth (ds : list Dtype) (r : Row) (i : nat) :
  nth i (fill_row ds r) VNull = nth i r VNull \/
  (nth i r VNull = VNull /\ exists d, nth i (fill_row ds r) VNull = fill_val d VNull).
Proof.
  revert r i; induction ds as [|d ds IH]; intros [|v r] i; simpl; try (left; reflexivity).
  destruct i as [|i]; [|apply IH].
  destruct v; simpl; [left; reflexivity | left; reflexivity | right; eauto].
Qed.

(** Step 2 with no rate row for the local currency: the one-row fallback. *)
Lemma filtrar_sin_coincidencias (hoy : string) (T : Table) (m : string) :
  has_col T "moneda_destino" = true -> m <> "N/A" ->
  existsb (fun r => val_eqb (nth_col T "moneda_destino" r) (VStr m)) (rows T) = false ->
  filtrar_tipo_cambio hoy (limpiar_dataframe T) m = Ok (fallback_tipo_cambio hoy m).
Proof.
  intros HT Hm HE. unfold filtrar_tipo_cambio.
  change (col_names (limpiar_dataframe T)) with (col_names T).
  destruct (index_of "moneda_destino" (col_names T)) as [i|] eqn:I.
  2:{ exfalso. apply index_of_none in I. unfold has_col in HT.
      apply existsb_exists in HT as [x [Hx Ex]]. apply String.eqb_eq in Ex.
      subst. contradiction. }
  simpl rows. rewrite filter_vacio; [reflexivity|].
  intros r R. destruct (val_eqb (nth i r VNull) (VStr m)) eqn:X; [exfalso|reflexivity].
  apply val_eqb_str in X.
  destruct (limpiar_rows_origen _ _ R) as [r0 [R0 ->]].
  destruct (fill_row_nth (map snd (cols T)) r0 i) as [Y | [_ [d Y]]]; rewrite Y in X.
  - assert (Z : existsb (fun r => val_eqb (nth_col T "moneda_destino" r) (VStr m)) (rows T) = true).
    { apply existsb_exists. exists r0. split; [exact R0|].
      unfold nth_col. rewrite I, X. simpl. apply String.eqb_refl. }
    congruence.
  - destruct d; simpl in X; inversion X. now apply Hm.
Qed.

Lemma select_fallback (hoy m : string) :
  select (fallback_tipo_cambio hoy m) ["fecha"; "tipo_cambio"]
  = Ok (mkTable [("fecha", DObject); ("tipo_cambio", DFloat64)] [[VStr hoy; VNum 1]]).
Proof. reflexivity. Qed.

(** The first join against the fallback table: today's rows get the rate
    [1], the rows of other dates a missing rate. *)
Lemma merge_fallback_fila (P M1 : Table) (hoy : string) (r' : Row) :
  bien_formada P -> has_col P "tipo_cambio" = false ->
  merge_left P (mkTable [("fecha", DObject); ("tipo_cambio", DFloat64)] [[VStr hoy; VNum 1]])
    "fecha" "_x" "_y" = Ok M1 ->
  In r' (rows M1) ->
  exists lr il, In lr (rows P) /\ index_of "fecha" (col_names P) = Some il /\
    cell M1 r' "fecha" = Some (nth il lr VNull) /\
    cell M1 r' "tipo_cambio" =
      Some (if val_eqb (nth il lr VNull) (VStr hoy) then VNum 1 else VNull).
Proof.
  intros W HT H R'. pose proof (proj1 (bien_formada_iff P) W) as W'.
  pose proof (has_col_false _ _ HT) as IT.
  destruct (merge_left_col_names _ _ _ _ _ _ H) as [ir [IR N]].
  simpl in IR. inversion IR; subst ir. clear IR.
  assert (N' : col_names M1 = col_names P ++ ["tipo_cambio"]).
  { assert (S2 : suffix_col "fecha" "_y" (col_names P) ("tipo_cambio", DFloat64)
                 = ("tipo_cambio", DFloat64)).
    { unfold suffix_col. cbn [fst]. unfold has_col in HT. rewrite HT.
      now rewrite andb_false_r. }
    rewrite N. cbn [remove_nth cols firstn skipn app map]. rewrite S2. cbn [fst].
    f_equal. rewrite map_map. unfold col_names. apply map_ext_in.
    intros c Hc. unfold suffix_col.
    assert (E : String.eqb (fst c) "tipo_cambio" = false).
    { apply String.eqb_neq. intros E. apply (proj1 (index_of_none _ _) IT).
      rewrite <- E. now apply in_map. }
    cbn [existsb]. rewrite E. cbn [orb]. now rewrite andb_false_r. }
  destruct (merge_left_rows _ _ _ _ _ _ H) as (il & ir & IL & IR & E).
  simpl in IR. inversion IR; subst ir. clear IR.
  rewrite E in R'. apply in_flat_map in R' as [lr [LR R']].
  exists lr, il. split; [exact LR|]. split; [exact IL|].
  assert (X : r' = lr ++ [if val_eqb (nth il lr VNull) (VStr hoy) then VNum 1 else VNull]).
  { unfold filas_de_merge in R'. simpl in R'.
    destruct (val_eqb (nth il lr VNull) (VStr hoy)); simpl in R';
      destruct R' as [<- | []]; reflexivity. }
  subst r'. unfold cell. rewrite N', !index_of_app, IL, IT. simpl.
  pose proof (W' lr LR) as Llr.
  split.
  - rewrite nth_error_app1 by (rewrite Llr; exact (index_col_length _ _ _ IL)).
    apply nth_error_nth'. rewrite Llr. exact (index_col_length _ _ _ IL).
  - rewrite nth_error_app2; unfold col_names; rewrite length_map, Llr; [|lia].
    now rewrite Nat.add_0_r, Nat.sub_diag.
Qed.

Lemma has_col_set_column (t : Table) (c c' : string) (d : Dtype) (vs : list Val) :
  c <> c' -> has_col (set_column t c' d vs) c = has_col t c.
Proof.
  intros N. unfold has_col, set_column, col_names.
  destruct (index_of c' (map fst (cols t))) as [i|] eqn:I; simpl.
  - rewrite map_replace_nth. simpl.
    now rewrite (replace_nth_same _ _ _ (index_of_nth_error _ _ _ I)).
  - rewrite map_app, existsb_app. simpl. apply String.eqb_neq in N. rewrite N.
    apply orb_false_r.
Qed.

Lemma productos_con_fecha_bien_formada (hoy : string) (P : Table) :
  bien_formada P -> bien_formada (productos_con_fecha hoy (limpiar_dataframe P)).
Proof.
  intros W. unfold productos_con_fecha. destruct (has_col _ _);
    [|apply set_const_bien_formada]; now apply limpiar_bien_formada.
Qed.

Lemma productos_con_fecha_has_col (hoy : string) (P : Table) (c : string) :
  c <> "fecha" -> has_col (productos_con_fecha hoy (limpiar_dataframe P)) c = has_col P c.
Proof.
  intros N. unfold productos_con_fecha.
  destruct (has_col (limpiar_dataframe P) "fecha"); [reflexivity|].
  unfold set_const. rewrite has_col_set_column by exact N. reflexivity.
Qed.

(** C2 (amended).  For tables with distinct column labels: when the rate
    table has a [moneda_destino] column but no
    row whose [moneda_destino] is the local currency [m] (with [m] other than
    ['N/A'], the value that cleaning puts in missing text cells), step 2 uses
    the one-row fallback table (today's date, rate [1.0]) and its log line
    does not fail.  For a product table without a [tipo_cambio] column of its
    own, a consolidated row then has [tipo_cambio = 1.0] when its [fecha] is
    today, and a missing [tipo_cambio] otherwise. *)
Theorem consolidar_sin_tipo_local (hoy ahora : string) (P T A : Table) (m : string) :
  bien_formada P -> bien_formada A ->
  etiquetas_distintas P -> etiquetas_distintas T -> etiquetas_distintas A ->
  has_col P "tipo_cambio" = false ->
  has_col T "moneda_destino" = true -> String.eqb m "N/A" = false ->
  existsb (fun r => val_eqb (nth_col T "moneda_destino" r) (VStr m)) (rows T) = false ->
  filtrar_tipo_cambio hoy (limpiar_dataframe T) m = Ok (fallback_tipo_cambio hoy m) /\
  log_primer_tipo_cambio (fallback_tipo_cambio hoy m) = Ok tt /\
  forall out r', consolidar_datos hoy ahora P T A m = Ok out -> In r' (rows out) ->
    (cell out r' "fecha" = Some (VStr hoy) /\ cell out r' "tipo_cambio" = Some (VNum 1)) \/
    (cell out r' "fecha" <> Some (VStr hoy) /\ cell out r' "tipo_cambio" = Some VNull).
Proof.
  intros WP WA _ _ _ HT HM Hm HE.
  assert (F : filtrar_tipo_cambio hoy (limpiar_dataframe T) m = Ok (fallback_tipo_cambio hoy m))
    by (apply filtrar_sin_coincidencias; [exact HM | apply String.eqb_neq, Hm | exact HE]).
  split; [exact F|]. split; [reflexivity|].
  intros out r' H R'.
  destruct (consolidar_fila _ _ _ _ _ _ _ _ WP WA H R')
    as (L & R & M1 & M2 & r2 & E1 & E3 & E4 & E5 & W1 & R2 & O & _).
  rewrite F in E1. inversion E1; subst L. clear E1.
  rewrite select_fallback in E3. inversion E3; subst R. clear E3.
  destruct (merge_left_sin_sufijo _ _ _ _ _ _ W1 E5 R2) as (r1 & R1 & O1).
  assert (HT' : has_col (productos_con_fecha hoy (limpiar_dataframe P)) "tipo_cambio" = false)
    by (rewrite productos_con_fecha_has_col by discriminate; exact HT).
  destruct (merge_fallback_fila _ _ _ _ (productos_con_fecha_bien_formada hoy P WP) HT' E4 R1)
    as (lr & il & _ & _ & CF & CT).
  rewrite (O "fecha"), (O "tipo_cambio") by discriminate.
  rewrite (O1 "fecha") by exact (cell_some_in _ _ _ _ CF).
  rewrite (O1 "tipo_cambio") by exact (cell_some_in _ _ _ _ CT).
  rewrite CF, CT.
  destruct (val_eqb (nth il lr VNull) (VStr hoy)) eqn:V.
  - left. apply val_eqb_str in V. now rewrite V.
  - right. split; [|reflexivity]. intros X. inversion X as [X']. rewrite X' in V.
    simpl in V. now rewrite String.eqb_refl in V.
Qed.

Lemma filtrar_distintas (hoy : string) (T L : Table) (m : string) :
  etiquetas_distintas T ->
  filtrar_tipo_cambio hoy (limpiar_dataframe T) m = Ok L -> etiquetas_distintas L.
Proof.
  unfold etiquetas_distintas, filtrar_tipo_cambio. intros D.
  change (col_names (limpiar_dataframe T)) with (col_names T).
  destruct (index_of "moneda_destino" (col_names T)); [|inversion 1].
  match goal with |- context [match rows ?x with _ => _ end] => destruct (rows x) end;
    intros E; inversion E; subst; [reflexivity | exact D].
Qed.

Lemma merge_filas_length (r : Table) (il ir : nat) (l : list Row) :
  List.length (flat_map (filas_de_merge r il ir) l)
  = list_sum (map (fun x => Nat.max 1 (List.length
      (filter (fun rr => val_eqb (nth il x VNull) (nth ir rr VNull)) (rows r)))) l).
Proof.
  induction l as [|x l IH]; simpl; [reflexivity|].
  rewrite length_app, filas_de_merge_length, IH. reflexivity.
Qed.

Lemma list_sum_flat_map {A B : Type} (g : B -> nat) (f : A -> list B) (l : list A) :
  list_sum (map g (flat_map f l)) = list_sum (map (fun x => list_sum (map g (f x))) l).
Proof.
  induction l as [|x l IH]; simpl; [reflexivity|].
  rewrite map_app, list_sum_app, IH. reflexivity.
Qed.

Lemma list_sum_constante {A : Type} (g : A -> nat) (c : nat) (l : list A) :
  (forall y, In y l -> g y = c) -> list_sum (map g l) = (List.length l * c)%nat.
Proof.
  induction l as [|y l IH]; simpl; intros H; [reflexivity|].
  rewrite H by now left. rewrite IH by (intros z Z; apply H; now right). reflexivity.
Qed.

Lemma filas_de_merge_prefijo (r : Table) (il ir : nat) (lr y : Row) :
  In y (filas_de_merge r il ir lr) -> exists x, y = lr ++ x.
Proof.
  unfold filas_de_merge.
  destruct (filter (fun rr => val_eqb (nth il lr VNull) (nth ir rr VNull)) (rows r)) as [|z zs].
  - intros [<- | []]. eauto.
  - intros Y. apply in_map_iff in Y as [rr [<- _]]. eauto.
Qed.

Lemma index_of_map_eq {A : Type} (c : string) (f g : A -> string) (l : list A) :
  (forall x, String.eqb c (f x) = String.eqb c (g x)) ->
  index_of c (map f l) = index_of c (map g l).
Proof.
  intros F. induction l as [|x l IH]; simpl; [reflexivity|]. now rewrite F, IH.
Qed.

(** The first join keeps the place of [producto_id]: its suffixes touch only
    [tipo_cambio], and the right table brings no [producto_id]. *)
Lemma merge_fecha_producto_id (P R M1 : Table) :
  col_names R = ["fecha"; "tipo_cambio"] ->
  merge_left P R "fecha" "_x" "_y" = Ok M1 ->
  index_of "producto_id" (col_names M1) = index_of "producto_id" (col_names P).
Proof.
  intros NR H. destruct (merge_left_ok _ _ _ _ _ _ H) as (il & ir & _ & IR & _ & _ & N & _).
  rewrite NR in IR. simpl in IR. inversion IR; subst ir. clear IR.
  unfold col_names in NR.
  destruct (cols R) as [|[a d1] [|[b d2] [|]]]; simpl in NR; inversion NR; subst a b.
  rewrite N, index_of_app, map_map.
  rewrite (index_of_map_eq "producto_id" _ fst (cols P)).
  - fold (col_names P). destruct (index_of "producto_id" (col_names P)); [reflexivity|].
    unfold remove_nth. cbn [firstn skipn app map]. unfold suffix_col. cbn [fst snd].
    destruct (existsb (String.eqb "tipo_cambio") (col_names P)); reflexivity.
  - intros [n d]. unfold suffix_col. simpl.
    destruct (String.eqb n "fecha") eqn:F; simpl; [reflexivity|].
    destruct (String.eqb n "tipo_cambio") eqn:T; simpl; [|reflexivity].
    apply String.eqb_eq in T. subst n. reflexivity.
Qed.

(** C1 (amended).  For product, rate and supplemental tables with distinct
    column labels, a product row [p] of the cleaned table (dated today when
    it has no [fecha]) gives [max(1, a) * max(1, b)] consolidated rows, where
    [a] is the number of rows of the local-currency rate table [L] with
    [p]'s [fecha] and [b] the number of rows of the cleaned supplemental
    table with [p]'s [producto_id].  Hence the consolidated table has at
    least as many rows as the cleaned product table, and exactly as many
    when [L] has at most one row per [fecha] and the cleaned supplemental
    table at most one row per [producto_id]. *)
Theorem consolidar_filas (hoy ahora : string) (P T A : Table) (m : string) (L out : Table) :
  bien_formada P -> etiquetas_distintas P -> etiquetas_distintas T -> etiquetas_distintas A ->
  filtrar_tipo_cambio hoy (limpiar_dataframe T) m = Ok L ->
  consolidar_datos hoy ahora P T A m = Ok out ->
  List.length (rows out)
    = list_sum (map (fun p =>
        (Nat.max 1 (coincidencias L "fecha"
                      (nth_col (productos_con_fecha hoy (limpiar_dataframe P)) "fecha" p))
         * Nat.max 1 (coincidencias (limpiar_dataframe A) "producto_id"
                      (nth_col (productos_con_fecha hoy (limpiar_dataframe P)) "producto_id" p)))%nat)
        (rows (productos_con_fecha hoy (limpiar_dataframe P)))) /\
  (List.length (rows (limpiar_dataframe P)) <= List.length (rows out))%nat /\
  (clave_unica L "fecha" -> clave_unica (limpiar_dataframe A) "producto_id" ->
   List.length (rows out) = List.length (rows (limpiar_dataframe P))).
Proof.
  intros WP _ DT _ F H.
  destruct (consolidar_pasos _ _ _ _ _ _ _ H)
    as (L0 & R & M1 & M2 & C & E1 & _ & E3 & E4 & E5 & E6 & E7).
  rewrite F in E1. inversion E1; subst L0. clear E1.
  set (P' := productos_con_fecha hoy (limpiar_dataframe P)) in *.
  change (merge_left P' R "fecha" "_x" "_y" = Ok M1) in E4.
  assert (W0 : bien_formada P') by exact (productos_con_fecha_bien_formada hoy P WP).
  assert (LP : List.length (rows P') = List.length (rows (limpiar_dataframe P))).
  { subst P'. unfold productos_con_fecha.
    destruct (has_col _ _); [reflexivity | apply set_const_length]. }
  assert (LO : List.length (rows out) = List.length (rows M2)).
  { rewrite (ordenar_length _ _ E7), !set_const_length. exact (calcular_length _ _ _ E6). }
  assert (DL := filtrar_distintas _ _ _ _ DT F).
  split; [|split].
  - destruct (select_fecha_tipo _ _ DL E3) as (iF & iT & IF & _ & NR & RR).
    destruct (merge_left_ok _ _ _ _ _ _ E4) as (il & ir & IL & IR & _ & _ & _ & _ & RM1).
    rewrite NR in IR. simpl in IR. inversion IR; subst ir. clear IR.
    destruct (merge_left_ok _ _ _ _ _ _ E5) as (il2 & ir2 & IL2 & IR2 & _ & _ & _ & _ & RM2).
    assert (IP : index_of "producto_id" (col_names P') = Some il2)
      by (rewrite <- (merge_fecha_producto_id _ _ _ NR E4); exact IL2).
    rewrite LO, RM2, merge_filas_length, RM1, list_sum_flat_map.
    f_equal. apply map_ext_in. intros p Hp.
    rewrite (list_sum_constante _
      (Nat.max 1 (List.length (filter (fun rr => val_eqb (nth il2 p VNull) (nth ir2 rr VNull))
                                 (rows (limpiar_dataframe A)))))).
    + rewrite filas_de_merge_length. unfold coincidencias, nth_col.
      rewrite IL, IP, IR2, IF, RR, filter_map_comm, length_map. reflexivity.
    + intros y Y. destruct (filas_de_merge_prefijo _ _ _ _ _ Y) as [x ->].
      rewrite app_nth1; [reflexivity|].
      rewrite (proj1 (bien_formada_iff P') W0 p Hp).
      exact (index_col_length _ _ _ IP).
  - rewrite LO, <- LP.
    pose proof (merge_left_length_ge _ _ _ _ _ _ E4).
    pose proof (merge_left_length_ge _ _ _ _ _ _ E5). lia.
  - intros U1 U2. rewrite LO, (merge_left_length_eq _ _ _ _ _ _ U2 E5).
    rewrite (merge_left_length_eq _ _ _ _ _ _ (clave_unica_select _ _ DL U1 E3) E4).
    exact LP.
Qed.

(** ** Consolidation on the example inputs *)

(** C1: two cleaned product rows, three consolidated rows ([P1] has two
    supplemental rows). *)
Lemma consolidar_filas_extra :
  consolidar_datos "2026-10-16" "2026-10-16 10:00:00"
    productos_ejemplo tipos_ejemplo adicionales_ejemplo "ARS" = Ok salida_ejemplo /\
  List.length (rows (limpiar_dataframe productos_ejemplo)) = 2%nat /\
  List.length (rows salida_ejemplo) = 3%nat.
Proof. split; [vm_compute; reflexivity|]. split; vm_compute; reflexivity. Qed.

(** C2: no [ARS] rate, yet the consolidated row of [P2], dated yesterday,
    has a missing [tipo_cambio] rather than [1.0]. *)
Lemma consolidar_tipo_cambio_nulo :
  existsb (fun r => val_eqb (nth_col tipos_ejemplo "moneda_destino" r) (VStr "ARS"))
          (rows tipos_ejemplo) = false /\
  consolidar_datos "2026-10-16" "2026-10-16 10:00:00"
    productos_ejemplo tipos_ejemplo adicionales_ejemplo "ARS" = Ok salida_ejemplo /\
  In (nth 2 (rows salida_ejemplo) []) (rows salida_ejemplo) /\
  cell salida_ejemplo (nth 2 (rows salida_ejemplo) []) "tipo_cambio" = Some VNull.
Proof.
  split; [vm_compute; reflexivity|]. split; [vm_compute; reflexivity|].
  split; [vm_compute; right; right; left; reflexivity | vm_compute; reflexivity].
Qed.


(** ** The theorems on concrete inputs *)

Lemma consolidar_filas_witness :
  List.length (rows salida_repetidos) = (2 * 2 + 1 * 1)%nat.
Proof.
  refine (eq_trans (proj1 (consolidar_filas "2026-10-16" "2026-10-16 10:00:00"
                             productos_ejemplo tipos_repetidos adicionales_ejemplo "EUR"
                             tipos_eur_repetidos salida_repetidos _ _ _ _ _ _)) _);
    vm_compute; reflexivity.
Defined.

Lemma consolidar_sin_tipo_local_witness :
  filtrar_tipo_cambio "2026-10-16" (limpiar_dataframe tipos_ejemplo) "ARS"
  = Ok (fallback_tipo_cambio "2026-10-16" "ARS").
Proof.
  refine (proj1 (consolidar_sin_tipo_local "2026-10-16" "2026-10-16 10:00:00"
                   productos_ejemplo tipos_ejemplo adicionales_ejemplo "ARS"
                   _ _ _ _ _ _ _ _ _)); vm_compute; reflexivity.
Defined.


Lemma validacion_y_extractores_witness :
  rows (tabla_de (extraer_api_productos feed_ejemplo hoy_ejemplo rnd_cero 1)) <> [] /\
  extraer_api_tipos_cambio feed_exponente hoy_ejemplo rnd_cero "USD" 1
    <> Err (EEmpty "Tipos de Cambio") /\
  extraer_api_tipos_cambio feed_exponente hoy_ejemplo rnd_cero "USD" 1
    = Ok (mkTable columnas_tipos
            [[VStr "2026-10-16"; VStr "USD"; VStr "ARS"; VNum (round_dec 4 (1000 * (98 # 100)))]]).
Proof.
  split; [|split].
  - refine (proj1 (proj2 (proj2 (proj2 (proj2 (proj2 (proj2 validacion_y_extractores))))))
              feed_ejemplo hoy_ejemplo rnd_cero _ _).
    vm_compute. reflexivity.
  - refine (proj1 (proj2 (proj2 (proj2 (proj2 (proj2 (proj2 (proj2 (proj2 (proj2 (proj2
              validacion_y_extractores)))))))))) [("rates", JObj [("ARS", JStr "1e3")])] []
              "ARS" (JStr "1e3") hoy_ejemplo rnd_cero "USD" "Tipos de Cambio" _).
    reflexivity.
  - vm_compute. reflexivity.
Defined.

Lemma extraer_productos_fechas_witness :
  exists fechas, generar_fechas_historicas hoy_ejemplo 3 = Ok fechas /\
    List.length fechas = 3%nat /\ NoDup fechas.
Proof.
  destruct (extraer_productos_fechas feed_ejemplo hoy_ejemplo rnd_cero 3
              (tabla_de (extraer_api_productos feed_ejemplo hoy_ejemplo rnd_cero 3)))
    as (fechas & items & G & L & N & _).
  - unfold fecha_valida. simpl. lia.
  - lia.
  - vm_compute. reflexivity.
  - exists fechas. split; [exact G|]. split; [exact L | exact N].
Defined.

Lemma calcular_precio_local_sin_columnas_witness :
  calcular_precio_local tabla_precio_vacia "ARS" = Ok tabla_precio_vacia.
Proof. apply calcular_precio_local_sin_columnas. right. vm_compute. reflexivity. Defined.

Lemma extractores_sin_dias_witness :
  extraer_api_productos feed_ejemplo hoy_ejemplo rnd_cero 0 = Err (EEmpty "Productos").
Proof.
  refine (proj1 (extractores_sin_dias hoy_ejemplo rnd_cero 0 kvs_ejemplo "USD" _ _)).
  - lia.
  - intros d H. vm_compute in H. discriminate H.
Defined.

Lemma extraer_productos_precios_no_negativos_witness :
  exists q, cell (tabla_de (extraer_api_productos feed_ejemplo hoy_ejemplo rnd_cero 2))
              (nth 0 (rows (tabla_de (extraer_api_productos feed_ejemplo hoy_ejemplo rnd_cero 2))) [])
              "precio_usd" = Some (VNum q) /\ 0 <= q.
Proof.
  refine (proj2 (proj2 (proj2 extraer_productos_precios_no_negativos))
            feed_ejemplo hoy_ejemplo rnd_cero 2%Z _ _ _ _ _).
  - intros i. unfold rnd_cero. apply Qle_refl.
  - vm_compute. reflexivity.
  - vm_compute. left. reflexivity.
Defined.

(** * Further properties of the pipeline's functions *)

Lemma val_eqb_refl (v : Val) : val_eqb v v = true.
Proof. destruct v; simpl; [apply Qeq_bool_refl | apply String.eqb_refl | reflexivity]. Qed.

Lemma val_eqb_sym (a b : Val) : val_eqb a b = val_eqb b a.
Proof. destruct a, b; simpl; try reflexivity; [apply Qeq_bool_comm | apply String.eqb_sym]. Qed.

Lemma row_eqb_refl (r : Row) : row_eqb r r = true.
Proof. induction r as [|v r IH]; simpl; [reflexivity|]. now rewrite val_eqb_refl, IH. Qed.

Lemma row_eqb_sym (a b : Row) : row_eqb a b = row_eqb b a.
Proof.
  revert b; induction a as [|x a IH]; intros [|y b]; simpl; try reflexivity.
  now rewrite val_eqb_sym, IH.
Qed.

Lemma row_eqb_nulos (a b : Row) : row_eqb a b = true -> forallb is_null a = forallb is_null b.
Proof.
  revert b; induction a as [|x a IH]; intros [|y b]; simpl; try discriminate; [reflexivity|].
  intros E. apply andb_prop in E as [E1 E2]. rewrite (IH b E2). f_equal.
  destruct x, y; simpl in E1; try discriminate; reflexivity.
Qed.

Lemma drop_dup_aux_length (seen rs : list Row) :
  (List.length (drop_dup_aux seen rs) <= List.length rs)%nat.
Proof.
  revert seen; induction rs as [|r rs IH]; intros seen; simpl; [lia|].
  destruct (existsb (row_eqb r) seen); simpl; [specialize (IH seen) | specialize (IH (r :: seen))]; lia.
Qed.

Lemma drop_dup_aux_spec (seen rs : list Row) :
  (forall x, In x (drop_dup_aux seen rs) -> existsb (row_eqb x) seen = false) /\
  (forall i j a b, (i < j)%nat -> nth_error (drop_dup_aux seen rs) i = Some a ->
     nth_error (drop_dup_aux seen rs) j = Some b -> row_eqb b a = false).
Proof.
  revert seen; induction rs as [|r rs IH]; intros seen; simpl.
  - split; [intros x []|]. intros i j a b _ Ha. destruct i; discriminate.
  - destruct (existsb (row_eqb r) seen) eqn:E; [apply IH|].
    destruct (IH (r :: seen)) as [IH1 IH2]. split.
    + intros x [<-|X]; [exact E|]. specialize (IH1 x X). simpl in IH1.
      now apply orb_false_iff in IH1 as [_ ?].
    + intros [|i] [|j] a b L Ha Hb; try lia; simpl in Ha, Hb.
      * inversion Ha; subst a. specialize (IH1 b (nth_error_In _ _ Hb)). simpl in IH1.
        now apply orb_false_iff in IH1 as [? _].
      * apply (IH2 i j); [lia | exact Ha | exact Hb].
Qed.

Lemma drop_dup_aux_cubre (seen rs : list Row) (r : Row) :
  In r rs ->
  existsb (row_eqb r) seen = true \/
  exists r', In r' (drop_dup_aux seen rs) /\ row_eqb r r' = true.
Proof.
  revert seen; induction rs as [|r0 rs IH]; intros seen H; [destruct H|]; simpl.
  destruct (existsb (row_eqb r0) seen) eqn:E.
  - destruct H as [<-|H]; [now left | now apply IH].
  - destruct H as [<-|H].
    + right. exists r0. split; [now left | apply row_eqb_refl].
    + destruct (IH (r0 :: seen) H) as [F | [r' [R' Q']]].
      * simpl in F. apply orb_true_iff in F as [F|F]; [|now left].
        right. exists r0. split; [now left | exact F].
      * right. exists r'. split; [now right | exact Q'].
Qed.

Lemma fill_row_nth_error (ds : list Dtype) (r : Row) (i : nat) (d : Dtype) :
  nth_error ds i = Some d -> nth_error (fill_row ds r) i = option_map (fill_val d) (nth_error r i).
Proof.
  revert r i; induction ds as [|d0 ds IH]; intros r i H; [destruct i; discriminate|].
  destruct r as [|v r]; [destruct i; reflexivity|].
  destruct i as [|i]; simpl in *; [now inversion H | now apply IH].
Qed.

Lemma fill_val_no_nulo (d : Dtype) (v : Val) :
  d = DFloat64 \/ d = DInt64 \/ d = DObject -> fill_val d v <> VNull.
Proof. intros [-> | [-> | ->]]; destruct v; simpl; congruence. Qed.

(** X1.  [limpiar_dataframe] keeps the columns, never adds rows, leaves no
    row whose values are all missing, and leaves no missing value in a
    float64, int64 or object column. *)
Theorem limpiar_sin_faltantes (t : Table) :
  cols (limpiar_dataframe t) = cols t /\
  (List.length (rows (limpiar_dataframe t)) <= List.length (rows t))%nat /\
  forall r, In r (rows (limpiar_dataframe t)) ->
    forallb is_null r = false /\
    forall i c d, nth_error (cols t) i = Some (c, d) ->
      d = DFloat64 \/ d = DInt64 \/ d = DObject ->
      nth_error r i <> Some VNull.
Proof.
  split; [reflexivity|]. split.
  - simpl. rewrite length_map.
    etransitivity; [apply filter_length_le | apply drop_dup_aux_length].
  - intros r R. destruct (limpiar_rows_shape t r R) as [r0 [-> N]].
    split; [exact (fill_row_not_all_null _ _ N)|].
    intros i c d Hi Nd.
    assert (Hd : nth_error (map snd (cols t)) i = Some d) by (rewrite nth_error_map, Hi; reflexivity).
    rewrite (fill_row_nth_error _ _ _ _ Hd).
    destruct (nth_error r0 i) as [v|]; simpl; [|discriminate].
    intros E. inversion E as [E']. exact (fill_val_no_nulo d v Nd E').
Qed.

(** X2.  [drop_duplicates] keeps the columns, returns only rows of its input,
    keeps a row equal to each input row, and returns no two equal rows
    (missing values compare equal). *)
Theorem drop_duplicates_sin_repetidos (t : Table) :
  cols (drop_duplicates t) = cols t /\
  (forall r, In r (rows (drop_duplicates t)) -> In r (rows t)) /\
  (forall r, In r (rows t) -> exists r', In r' (rows (drop_duplicates t)) /\ row_eqb r r' = true) /\
  (forall i j a b, i <> j -> nth_error (rows (drop_duplicates t)) i = Some a ->
     nth_error (rows (drop_duplicates t)) j = Some b -> row_eqb a b = false).
Proof.
  split; [reflexivity|]. split; [intros r; apply drop_dup_aux_incl|]. split.
  - intros r R. destruct (drop_dup_aux_cubre [] (rows t) r R) as [F|X]; [discriminate|exact X].
  - intros i j a b N Ha Hb. destruct (drop_dup_aux_spec [] (rows t)) as [_ S].
    destruct (Nat.lt_total i j) as [L|[L|L]]; [|contradiction|].
    + rewrite row_eqb_sym. exact (S i j a b L Ha Hb).
    + exact (S j i b a L Hb Ha).
Qed.

(** X3.  A row of the input that is not entirely missing survives
    [limpiar_dataframe]: the output holds the filled copy of a row equal to
    it. *)
Theorem limpiar_conserva_filas (t : Table) (r0 : Row) :
  In r0 (rows t) -> forallb is_null r0 = false ->
  exists r1, row_eqb r0 r1 = true /\
    In (fill_row (map snd (cols t)) r1) (rows (limpiar_dataframe t)).
Proof.
  intros R N. destruct (drop_dup_aux_cubre [] (rows t) r0 R) as [F|[r1 [R1 E]]]; [discriminate|].
  exists r1. split; [exact E|]. simpl. apply in_map. apply filter_In. split; [exact R1|].
  rewrite <- (row_eqb_nulos _ _ E), N. reflexivity.
Qed.

(** ** Summary statistics *)
















Lemma numeric_values_ok (vs : list Val) :
  (forall v s, In v vs -> v <> VStr s) -> exists qs, numeric_values vs = Ok qs.
Proof.
  induction vs as [|v vs IH]; intros H; simpl; [now exists []|].
  destruct IH as [qs E]; [intros w s W; apply H; now right|].
  destruct v as [x|s|].
  - rewrite E. cbn [bind]. now exists (x :: qs).
  - exfalso. exact (H (VStr s) s (or_introl eq_refl) eq_refl).
  - now exists qs.
Qed.

(** A statistics block that is computed comes from the numbers of its
    column: an object column holding strings fails. *)
Lemma bloque_ok (df : Table) (c : string) (s : SVal) :
  bloque_estadisticas df c = Ok s ->
  exists vs qs, column df c = Ok vs /\ numeric_values vs = Ok qs /\
    s = SStats (q_min qs) (q_max qs) (q_mean qs) (q_median qs).
Proof.
  unfold bloque_estadisticas.
  destruct (column df c) as [vs|]; cbn [bind]; [|discriminate].
  assert (K : forall qs, numeric_values vs = Ok qs ->
                Ok (SStats (q_min qs) (q_max qs) (q_mean qs) (q_median qs)) = Ok s ->
                exists vs0 qs0, Ok vs = Ok vs0 /\ numeric_values vs0 = Ok qs0 /\
                  s = SStats (q_min qs0) (q_max qs0) (q_mean qs0) (q_median qs0)).
  { intros qs NV E. inversion E. eauto. }
  destruct (dtype_of df c).
  all: try (destruct (numeric_values vs) as [qs|] eqn:NV; cbn [bind]; [now apply K|discriminate]).
  - unfold valores_objeto. destruct (textos vs) as [|t ts].
    + destruct (numeric_values vs) as [qs|] eqn:NV; cbn [bind]; [now apply K|discriminate].
    + destruct (forallb es_texto vs); [|discriminate].
      destruct (parse_float (texto_min t ts)), (parse_float (texto_max t ts)); discriminate.
  - cbn [bind]. discriminate.
Qed.

Lemma numeric_values_nulos (vs : list Val) :
  (forall v, In v vs -> v = VNull) -> numeric_values vs = Ok [].
Proof.
  induction vs as [|v vs IH]; intros H; [reflexivity|].
  rewrite (H v (or_introl eq_refl)). apply IH. intros w W. apply H. now right.
Qed.

(** The statistics block of a column whose values are all missing (or
    which has no rows) holds missing values only. *)
Lemma bloque_nulo (df : Table) (c : string) (s : SVal) :
  bloque_estadisticas df c = Ok s ->
  (forall row, In row (rows df) -> nth_col df c row = VNull) ->
  s = SStats None None None None.
Proof.
  intros E N. destruct (bloque_ok _ _ _ E) as (vs & qs & C & NV & ->).
  destruct (column_ok _ _ _ C) as [i [I ->]].
  rewrite numeric_values_nulos in NV.
  - inversion NV. reflexivity.
  - intros v V. apply in_map_iff in V as [row [<- R]].
    specialize (N row R). unfold nth_col in N. now rewrite I in N.
Qed.

(** C8 (corrected): in the summary, the [por_categoria] mapping is present
    exactly when the table has a [categoria] column, and the [precio_usd]
    and [precio_local] statistics blocks are present exactly when the
    corresponding column exists, whether or not it has rows; a block whose
    column has no rows, or only missing values, holds missing statistics. *)
Theorem resumen_claves_condicionales (ahora : string) (df : Table) (r : Resumen) :
  generar_resumen_estadistico ahora df = Ok r ->
  has_key r "por_categoria" = has_col df "categoria" /\
  has_key r "precio_usd" = has_col df "precio_usd" /\
  has_key r "precio_local" = has_col df "precio_local" /\
  (forall k, k = "precio_usd" \/ k = "precio_local" -> has_col df k = true ->
     (forall row, In row (rows df) -> nth_col df k row = VNull) ->
     In (k, SStats None None None None) r).
Proof.
  unfold generar_resumen_estadistico.
  destruct (has_col df "precio_usd") eqn:Hu;
    [destruct (bloque_estadisticas df "precio_usd") as [bu|] eqn:Bu; [|discriminate] |];
  simpl;
  (destruct (has_col df "precio_local") eqn:Hl;
    [destruct (bloque_estadisticas df "precio_local") as [bl|] eqn:Bl; [|discriminate] |]);
  simpl;
  (destruct (has_col df "categoria") eqn:Hc;
    [destruct (column df "categoria") as [vs|] eqn:Cv; [|discriminate] |]);
  simpl; intros H; inversion H; subst; clear H;
  (split; [repeat rewrite has_key_app; simpl; auto|]);
  (split; [repeat rewrite has_key_app; simpl; auto|]);
  (split; [repeat rewrite has_key_app; simpl; auto|]);
  intros k [-> | ->] Hk N; try congruence;
  try rewrite (bloque_nulo _ _ _ Bu N); try rewrite (bloque_nulo _ _ _ Bl N);
  repeat rewrite in_app_iff; simpl; intuition.
Qed.

Lemma resumen_claves_condicionales_witness :
  has_key (resumen_de (generar_resumen_estadistico "2026-10-16 00:00:00" tabla_precio_vacia))
    "por_categoria" = has_col tabla_precio_vacia "categoria" /\
  In ("precio_local", SStats None None None None)
    (resumen_de (generar_resumen_estadistico "2026-10-16 00:00:00" tabla_precio_ejemplo_nulo)).
Proof.
  split.
  - refine (proj1 (resumen_claves_condicionales "2026-10-16 00:00:00" tabla_precio_vacia _ _)).
    vm_compute. reflexivity.
  - refine (proj2 (proj2 (proj2 (resumen_claves_condicionales "2026-10-16 00:00:00"
              tabla_precio_ejemplo_nulo _ _))) "precio_local" _ _ _).
    + vm_compute. reflexivity.
    + right. reflexivity.
    + vm_compute. reflexivity.
    + simpl. intros row [<- | []]. reflexivity.
Defined.




(** ** Instances of the further properties *)

Lemma limpiar_conserva_filas_witness :
  exists r1, row_eqb [VNum 1; VNull] r1 = true /\
    In (fill_row (map snd (cols tabla_no_idempotente)) r1)
       (rows (limpiar_dataframe tabla_no_idempotente)).
Proof. apply limpiar_conserva_filas; [simpl; now left | reflexivity]. Defined.


